(** * pointer-admin: the spot form and the locations page

    A shallow embedding of [src/pages/spots/SpotForm/index.tsx] and
    [src/pages/Locations/index.tsx].  Component state is threaded explicitly
    through a small state / exception / trace monad; every call that leaves
    the component (service requests, toasts, the [onSubmit] prop) is recorded
    in the trace.  Modules the pages import but that are not part of the
    sources at hand ([./schema], [@/utils], [@/hooks], the UI kit) are
    gathered in records of imports and stay abstract. *)

From Stdlib Require Import ZArith QArith Lia.
From stdpp Require Import base option list gmap strings.

Local Open Scope string_scope.
Local Open Scope list_scope.

(** ** JavaScript values the pages manipulate *)

Module Js.

(** A JavaScript [number]: the finite doubles are rationals. *)
Inductive number : Type :=
| NaN
| NegInf
| Fin (q : Q)
| PosInf.

(** [a <= b] on numbers; every comparison with [NaN] is false. *)
Definition num_le (a b : number) : bool :=
  match a, b with
  | NaN, _ | _, NaN => false
  | NegInf, _ => true
  | _, PosInf => true
  | Fin x, Fin y => Qle_bool x y
  | _, _ => false
  end.

(** Whatever a [catch] clause may receive. *)
Inductive thrown : Type :=
| ThrownNullish                          (* [null] or [undefined] *)
| ThrownString (s : string)
| ThrownError (message : option string). (* an object; [message] may be absent *)

(** [(error as string) ?? fallback] *)
Definition nullish_or (error : thrown) (fallback : string) : thrown :=
  match error with
  | ThrownNullish => ThrownString fallback
  | _ => error
  end.

(** [err?.message] *)
Definition message_of (err : thrown) : option string :=
  match err with
  | ThrownError m => m
  | ThrownNullish | ThrownString _ => None
  end.

(** Truthiness of a [string | undefined]. *)
Definition truthy (v : option string) : bool :=
  match v with
  | None => false
  | Some s => negb (String.eqb s EmptyString)
  end.

(** The settlement of a promise. *)
Inductive outcome (A : Type) : Type :=
| Resolved (a : A)
| Rejected (e : thrown).
Arguments Resolved {A} a.
Arguments Rejected {A} e.

End Js.
Import Js.

(** ** Transport records *)

(** [SpotInput], lines 23-31 of the form. *)
Record SpotInput : Type := mkSpotInput {
  in_name : string;
  in_state_id : string;
  in_city_id : string;
  in_category_id : string;
  in_preview : string;
  in_latitude : number;
  in_longitude : number;
}.

Record StateDTO : Type := { st_id : string; st_name : string }.
Record CityDTO : Type := { ct_id : string; ct_name : string }.
Record CategoryDTO : Type := { cat_id : string; cat_name : string }.

(** The answer of [StateService.getById]: only [cities] is read. *)
Record StateByIdDTO : Type := { sb_cities : list CityDTO }.

(** [SpotByIdDTO] is declared in [@/services/spot.service]; these are the
    members the form reads.  [spot.city.state.id] is dereferenced without a
    guard on line 76, so [city] and [state] are plain members. *)
Record SpotStateRef : Type := { sref_id : string }.
Record SpotCityRef : Type := { cref_id : string; cref_state : SpotStateRef }.
Record SpotCategoryRef : Type := { gref_id : string }.
Record SpotFileRef : Type := { fref_name : string }.
Record SpotByIdDTO : Type := {
  spot_name : string;
  spot_preview : string;
  spot_latitude : number;
  spot_longitude : number;
  spot_city : SpotCityRef;
  spot_category : SpotCategoryRef;
  spot_file : option SpotFileRef;
}.

(** A browser [File], as far as the pages look at it. *)
Record File : Type := { file_name : string; file_type : string; file_size : Z }.

(** ** The trace of calls leaving a component *)

Inductive effect : Type :=
| StateService_getAll
| StateService_getById (id : option string)
| CategoryService_getAll (page limit : Z)
| LocationService_getAll (page limit : Z)
| Utils_getLocation
| Toast_error (content : thrown)
| Props_onSubmit (payload : SpotInput).

(** ** State, exceptions and trace *)

Module Eff.
Section Eff.
Context {S : Type}.

(** A computation returns the new state, the calls it made and either a
    value or the thrown exception.  State written before a [throw]
    stays written, as with React setters. *)
Definition M (A : Type) : Type := S -> S * list effect * (A + thrown).

Definition ret {A} (a : A) : M A := fun s => (s, [], inl a).

Definition bind {A B} (m : M A) (k : A -> M B) : M B :=
  fun s =>
    match m s with
    | (s1, t1, inl a) =>
        match k a s1 with
        | (s2, t2, r) => (s2, t1 ++ t2, r)
        end
    | (s1, t1, inr e) => (s1, t1, inr e)
    end.

Definition throw {A} (e : thrown) : M A := fun s => (s, [], inr e).

Definition try_catch {A} (body : M A) (handler : thrown -> M A) : M A :=
  fun s =>
    match body s with
    | (s1, t1, inl a) => (s1, t1, inl a)
    | (s1, t1, inr e) =>
        match handler e s1 with
        | (s2, t2, r) => (s2, t1 ++ t2, r)
        end
    end.

Definition get : M S := fun s => (s, [], inl s).
Definition modify (f : S -> S) : M unit := fun s => (f s, [], inl tt).
Definition emit (e : effect) : M unit := fun s => (s, [e], inl tt).

(** [await p] once [p] has settled. *)
Definition settle {A} (r : outcome A) : M A :=
  match r with
  | Resolved a => ret a
  | Rejected e => throw e
  end.

Definition state_of {A} (x : S * list effect * (A + thrown)) : S := x.1.1.
Definition trace_of {A} (x : S * list effect * (A + thrown)) : list effect := x.1.2.
Definition result_of {A} (x : S * list effect * (A + thrown)) : A + thrown := x.2.
End Eff.
Arguments M : clear implicits.

(** An [async] function with a single [await]: the request it issues when
    called, and what it does once the awaited promise settles. *)
Record async (S A : Type) : Type := {
  request : S -> effect;
  resume : outcome A -> M S unit;
}.
Arguments request {S A} _ _.
Arguments resume {S A} _ _.

Definition call {S A} (a : async S A) : M S unit :=
  bind get (fun s => emit (request a s)).
End Eff.
Import Eff.

Declare Scope eff_scope.
Delimit Scope eff_scope with eff.
Notation "'do' x <- m ; k" := (bind m (fun x => k))
  (at level 10, x name, m at level 100, k at level 200) : eff_scope.
Notation "m ;; k" := (bind m (fun _ => k))
  (at level 100, k at level 200, right associativity) : eff_scope.

(** ** The spot form, [src/pages/spots/SpotForm/index.tsx] *)

Module SpotForm.

(** What a numeric field of the form may hold: nothing, a number (default
    values, [setValue]) or the text typed in the input. *)
Inductive numeric_field : Type :=
| NumUndefined
| NumValue (n : number)
| NumText (s : string).

(** The values react-hook-form keeps for [useForm<SpotInput>]. *)
Record SpotValues : Type := mkValues {
  name : option string;
  state_id : option string;
  city_id : option string;
  category_id : option string;
  preview : option string;
  latitude : numeric_field;
  longitude : numeric_field;
}.

Record FieldError : Type := { fe_type : string; fe_message : option string }.

(** The failures of one schema validation: at least one, each with the
    path of its field. *)
Definition issues : Type := (string * FieldError) * list (string * FieldError).

Inductive ButtonType : Type := TypeSubmit | TypeReset | TypeButton.

(** Imports of the form that are not among the sources. *)
Record Imports : Type := {
  (** [spotSchema] of [./schema], run on the form values: the cast payload
      or the failures. *)
  spotSchema : SpotValues -> SpotInput + issues;
  (** [validateFile] of [@/utils]: [Some e] when it throws [e]. *)
  validateFile : option File -> option thrown;
  (** [URL.createObjectURL]; it throws on an argument that is no blob. *)
  createObjectURL : option File -> string + thrown;
  (** The [type] the [Button] of the UI kit ends up with when none is given. *)
  button_default_type : ButtonType;
}.

(** Component state: the form state of [useForm], the three [useState]
    lists and the [file] state the parent hands down with [setFile]. *)
Record FormState : Type := mkState {
  values : SpotValues;
  errors : gmap string FieldError;
  states : list StateDTO;
  cities : list CityDTO;
  categories : list CategoryDTO;
  file : option File;
}.

Definition with_values (f : SpotValues -> SpotValues) (s : FormState) : FormState :=
  mkState (f (values s)) (errors s) (states s) (cities s) (categories s) (file s).
Definition with_errors (f : gmap string FieldError -> gmap string FieldError)
    (s : FormState) : FormState :=
  mkState (values s) (f (errors s)) (states s) (cities s) (categories s) (file s).

Definition setStates (data : list StateDTO) : M FormState unit :=
  modify (fun s => mkState (values s) (errors s) data (cities s) (categories s) (file s)).
Definition setCities (data : list CityDTO) : M FormState unit :=
  modify (fun s => mkState (values s) (errors s) (states s) data (categories s) (file s)).
Definition setCategories (data : list CategoryDTO) : M FormState unit :=
  modify (fun s => mkState (values s) (errors s) (states s) (cities s) data (file s)).
Definition setFile (f : option File) : M FormState unit :=
  modify (fun s => mkState (values s) (errors s) (states s) (cities s) (categories s) f).

(** [setValue], one definition per field name used. *)
Definition setValue_name (v : option string) : M FormState unit :=
  modify (with_values (fun x =>
    mkValues v (state_id x) (city_id x) (category_id x) (preview x) (latitude x) (longitude x))).
Definition setValue_state_id (v : option string) : M FormState unit :=
  modify (with_values (fun x =>
    mkValues (name x) v (city_id x) (category_id x) (preview x) (latitude x) (longitude x))).
Definition setValue_city_id (v : option string) : M FormState unit :=
  modify (with_values (fun x =>
    mkValues (name x) (state_id x) v (category_id x) (preview x) (latitude x) (longitude x))).
Definition setValue_category_id (v : option string) : M FormState unit :=
  modify (with_values (fun x =>
    mkValues (name x) (state_id x) (city_id x) v (preview x) (latitude x) (longitude x))).
Definition setValue_preview (v : option string) : M FormState unit :=
  modify (with_values (fun x =>
    mkValues (name x) (state_id x) (city_id x) (category_id x) v (latitude x) (longitude x))).
Definition setValue_latitude (v : numeric_field) : M FormState unit :=
  modify (with_values (fun x =>
    mkValues (name x) (state_id x) (city_id x) (category_id x) (preview x) v (longitude x))).
Definition setValue_longitude (v : numeric_field) : M FormState unit :=
  modify (with_values (fun x =>
    mkValues (name x) (state_id x) (city_id x) (category_id x) (preview x) (latitude x) v)).

Definition setError (path : string) (e : FieldError) : M FormState unit :=
  modify (with_errors (fun m => <[path := e]> m)).
Definition clearErrors (path : string) : M FormState unit :=
  modify (with_errors (fun m => delete path m)).

Definition toast_error (content : thrown) : M FormState unit :=
  emit (Toast_error content).

(** [watch("state_id")] *)
Definition stateId (s : FormState) : option string := state_id (values s).

(** [defaultValues], lines 52-60: [spot?.a?.b] is [undefined] without a spot. *)
Definition defaultValues (spot : option SpotByIdDTO) : SpotValues :=
  {| name := spot_name <$> spot;
     city_id := (fun sp => cref_id (spot_city sp)) <$> spot;
     state_id := (fun sp => sref_id (cref_state (spot_city sp))) <$> spot;
     preview := spot_preview <$> spot;
     category_id := (fun sp => gref_id (spot_category sp)) <$> spot;
     longitude := from_option (fun sp => NumValue (spot_longitude sp)) NumUndefined spot;
     latitude := from_option (fun sp => NumValue (spot_latitude sp)) NumUndefined spot |}.

(** The first render: [useForm] with its defaults, three empty lists. *)
Definition initial (spot : option SpotByIdDTO) (file0 : option File) : FormState :=
  {| values := defaultValues spot; errors := ∅;
     states := []; cities := []; categories := []; file := file0 |}.

Section Component.
Context (imports : Imports) (spot : option SpotByIdDTO).

Local Open Scope eff_scope.

(** Lines 71-80. *)
Definition getStates : async FormState (list StateDTO) :=
  {| request := fun _ => StateService_getAll;
     resume := fun r =>
       try_catch
         (do data <- settle r;
          setStates data;;
          match spot with
          | Some sp => setValue_state_id (Some (sref_id (cref_state (spot_city sp))))
          | None => ret tt
          end)
         (fun error =>
            toast_error (nullish_or error "Ocorreu um erro ao listar estados.")) |}.

(** Lines 82-90. *)
Definition getCities : async FormState StateByIdDTO :=
  {| request := fun s => StateService_getById (stateId s);
     resume := fun r =>
       try_catch
         (do data <- settle r;
          setCities (sb_cities data))
         (fun error =>
            toast_error (nullish_or error "Ocorreu um erro ao listar cidades.")) |}.

(** Lines 92-100. *)
Definition getCategories : async FormState (list CategoryDTO) :=
  {| request := fun _ => CategoryService_getAll 1 9999;
     resume := fun r =>
       try_catch
         (do data <- settle r;
          setCategories data)
         (fun error =>
            toast_error (nullish_or error "Ocorreu um erro ao listar categorias.")) |}.

(** Lines 102-113. *)
Definition getCurrentLocation : async FormState (number * number) :=
  {| request := fun _ => Utils_getLocation;
     resume := fun r =>
       try_catch
         (do coords <- settle r;
          setValue_latitude (NumValue coords.1);;
          setValue_longitude (NumValue coords.2))
         (fun error =>
            toast_error (nullish_or error "Ocorreu um erro ao buscar localização.")) |}.

(** The effect of lines 115-117, run whenever [stateId] is new. *)
Definition effect_stateId : M FormState unit :=
  do s <- get;
  if truthy (stateId s) then call getCities else ret tt.

(** The effect of lines 119-122, run after the first render only. *)
Definition effect_mount : M FormState unit :=
  call getCategories;; call getStates.

(** After the first render both effects run, in the order they are declared. *)
Definition mount : M FormState unit :=
  effect_stateId;; effect_mount.

(** *** Validation and submission *)

(** What a react-hook-form resolver returns. *)
Record resolver_result : Type := {
  res_values : option SpotInput;       (* [{}] when validation failed *)
  res_errors : gmap string FieldError;
}.

(** [yupResolver(spotSchema)]: the cast values and no error, or no value
    and the failures keyed by path, the first failure of a path winning. *)
Definition yupResolver (vals : SpotValues) : resolver_result :=
  match spotSchema imports vals with
  | inl payload => {| res_values := Some payload; res_errors := ∅ |}
  | inr (e, es) => {| res_values := None; res_errors := list_to_map (e :: es) |}
  end.

(** [handleSubmit(onValid)] of react-hook-form with a resolver: the
    resolver's errors replace the form errors, and [onValid] runs on the
    resolver's values when there is no error. *)
Definition handleSubmit (onValid : SpotInput -> M FormState unit) : M FormState unit :=
  do s <- get;
  let r := yupResolver (values s) in
  modify (with_errors (fun _ => res_errors r));;
  if decide (res_errors r = ∅)
  then match res_values r with
       | Some payload => onValid payload
       | None => ret tt
       end
  else ret tt.

(** The [onSubmit] prop belongs to the caller: calling it is recorded. *)
Definition onSubmit (payload : SpotInput) : M FormState unit :=
  emit (Props_onSubmit payload).

(** [<form onSubmit={handleSubmit(onSubmit)}>], line 126. *)
Definition form_onSubmit : M FormState unit := handleSubmit onSubmit.

(** *** The image input, lines 158-174 *)

Definition run_validateFile (currentFile : option File) : M FormState unit :=
  match validateFile imports currentFile with
  | Some e => throw e
  | None => ret tt
  end.

Definition run_createObjectURL (currentFile : option File) : M FormState string :=
  match createObjectURL imports currentFile with
  | inl url => ret url
  | inr e => throw e
  end.

Definition onChange_file (currentFile : option File) : M FormState unit :=
  try_catch
    (run_validateFile currentFile;;
     setFile currentFile;;
     do url <- run_createObjectURL currentFile;
     setValue_preview (Some url);;
     clearErrors "preview")
    (fun error =>
       setError "preview" {| fe_type := "custom"; fe_message := message_of error |};;
       setFile None).

(** *** Buttons, lines 199 and 272-277 *)

Inductive button : Type := BtnLocation | BtnCancelar | BtnSalvar.

Record ButtonProps : Type := {
  b_children : string;
  b_type : option ButtonType;
  b_variant : option string;
  b_onClick : option (M FormState unit);
}.

Definition button_props (b : button) : ButtonProps :=
  match b with
  | BtnLocation =>
      {| b_children := "Localização atual"; b_type := None; b_variant := None;
         b_onClick := Some (call getCurrentLocation) |}
  | BtnCancelar =>
      {| b_children := "Cancelar"; b_type := Some TypeSubmit;
         b_variant := Some "ghost"; b_onClick := None |}
  | BtnSalvar =>
      {| b_children := "Salvar"; b_type := Some TypeSubmit; b_variant := None;
         b_onClick := None |}
  end.

(** Pressing a button inside the form: its own handler first, then the
    activation behaviour of its type.  The form declares no reset
    handler, so a reset button would run nothing of the component. *)
Definition click (p : ButtonProps) : M FormState unit :=
  from_option id (ret tt) (b_onClick p);;
  match default (button_default_type imports) (b_type p) with
  | TypeSubmit => form_onSubmit
  | TypeReset | TypeButton => ret tt
  end.

(** *** What is rendered *)

Inductive PreviewBox : Type :=
| Img (src : string) (alt : option string)
| ImageIcon.

(** The props of a [Select]; the category select is given its value as
    [defaultValue], the other two as [value]. *)
Record SelectProps : Type := {
  sel_value : option string;
  sel_disabled : bool;
  sel_error : option string;
  sel_items : list (string * string);   (* value and label *)
}.

Record View : Type := {
  v_preview : PreviewBox;
  v_title : option string;
  v_name_error : option string;
  v_file_placeholder : string;
  v_file_error : option string;
  v_longitude_error : option string;
  v_latitude_error : option string;
  v_state : SelectProps;
  v_city : SelectProps;
  v_category : SelectProps;
  v_buttons : list ButtonProps;
}.

(** [errors?.path?.message] *)
Definition error_message (s : FormState) (path : string) : option string :=
  errors s !! path ≫= fe_message.

Definition render (s : FormState) : View :=
  {| v_preview :=
       if truthy (preview (values s))
       then Img (default EmptyString (preview (values s))) (name (values s))
       else ImageIcon;
     v_title := name (values s);
     v_name_error := error_message s "name";
     v_file_placeholder :=
       default "Buscar imagem"
         (if truthy (file_name <$> file s)
          then file_name <$> file s
          else fref_name <$> (spot ≫= spot_file));
     v_file_error := error_message s "preview";
     v_longitude_error := error_message s "longitude";
     v_latitude_error := error_message s "latitude";
     v_state :=
       {| sel_value := state_id (values s); sel_disabled := false;
          sel_error := error_message s "state_id";
          sel_items := (fun x => (st_id x, st_name x)) <$> states s |};
     v_city :=
       {| sel_value := city_id (values s); sel_disabled := negb (truthy (stateId s));
          sel_error := error_message s "city_id";
          sel_items := (fun x => (ct_id x, ct_name x)) <$> cities s |};
     v_category :=
       {| sel_value := category_id (values s); sel_disabled := false;
          sel_error := error_message s "category_id";
          sel_items := (fun x => (cat_id x, cat_name x)) <$> categories s |};
     v_buttons := button_props <$> [BtnLocation; BtnCancelar; BtnSalvar] |}.

(** *** The form as a machine *)

(** What can happen to a mounted form: the user edits a field, picks a
    file or presses a button, or a pending request settles.  An edit is the
    change of the field's value; the validation react-hook-form runs again
    on an edited field once the form has been submitted is left out, so the
    errors after typing or selecting are not those of the model. *)
Inductive event : Type :=
| NameInput (v : string)
| LongitudeInput (v : string)
| LatitudeInput (v : string)
| StateSelected (v : string)
| CitySelected (v : string)
| CategorySelected (v : string)
| FileInput (currentFile : option File)
| Click (b : button)
| StatesSettled (r : outcome (list StateDTO))
| CitiesSettled (r : outcome StateByIdDTO)
| CategoriesSettled (r : outcome (list CategoryDTO))
| LocationSettled (r : outcome (number * number)).

Definition handler (ev : event) : M FormState unit :=
  match ev with
  | NameInput v => setValue_name (Some v)
  | LongitudeInput v => setValue_longitude (NumText v)
  | LatitudeInput v => setValue_latitude (NumText v)
  | StateSelected v => setValue_state_id (Some v)
  | CitySelected v => setValue_city_id (Some v)
  | CategorySelected v => setValue_category_id (Some v)
  | FileInput currentFile => onChange_file currentFile
  | Click b => click (button_props b)
  | StatesSettled r => resume getStates r
  | CitiesSettled r => resume getCities r
  | CategoriesSettled r => resume getCategories r
  | LocationSettled r => resume getCurrentLocation r
  end.

(** One event: its handler, then the re-render; [useEffect] with the
    dependency [stateId] runs its effect when the value differs from the
    one of the previous render. *)
Definition step (ev : event) (s : FormState) : FormState * list effect :=
  match handler ev s with
  | (s1, t1, _) =>
      if decide (stateId s = stateId s1)
      then (s1, t1)
      else match effect_stateId s1 with
           | (s2, t2, _) => (s2, t1 ++ t2)
           end
  end.

Fixpoint run (evs : list event) (s : FormState) : FormState * list effect :=
  match evs with
  | [] => (s, [])
  | ev :: rest =>
      match step ev s with
      | (s1, t1) =>
          match run rest s1 with
          | (s2, t2) => (s2, t1 ++ t2)
          end
      end
  end.

(** A whole life of the form: first render, mount effects, events. *)
Definition lifecycle (file0 : option File) (evs : list event)
    : FormState * list effect :=
  match mount (initial spot file0) with
  | (s0, t0, _) =>
      match run evs s0 with
      | (s1, t1) => (s1, t0 ++ t1)
      end
  end.
End Component.

(** Classifiers of the trace. *)
Definition is_states_fetch (e : effect) : bool :=
  match e with StateService_getAll => true | _ => false end.
Definition is_categories_fetch (e : effect) : bool :=
  match e with CategoryService_getAll _ _ => true | _ => false end.
Definition is_cities_fetch (e : effect) : bool :=
  match e with StateService_getById _ => true | _ => false end.
Definition is_submit (e : effect) : bool :=
  match e with Props_onSubmit _ => true | _ => false end.
Definition is_toast (e : effect) : bool :=
  match e with Toast_error _ => true | _ => false end.
Definition is_reference_fetch (e : effect) : bool :=
  is_states_fetch e || is_categories_fetch e || is_cities_fetch e.
End SpotForm.

(** ** The schema of the form *)

Module SpotSchema.
Import SpotForm.

Section Schema.
(** The number yup's [number()] makes of a typed text. *)
Context (cast_number : string -> number).
(** The failure reported for a latitude that is out of range. *)
Context (range_error : number -> FieldError).
(** The remaining rules of the schema, all fields included. *)
Context (rest : SpotValues -> SpotInput + issues).

Definition latitude_in_range (n : number) : bool :=
  num_le (Fin (-90 # 1)) n && num_le n (Fin (90 # 1)).

(** The latitude as the schema sees it, when the field holds one. *)
Definition latitude_number (f : numeric_field) : option number :=
  match f with
  | NumUndefined => None
  | NumValue n => Some n
  | NumText s => Some (cast_number s)
  end.

Definition latitude_issues (vals : SpotValues) : list (string * FieldError) :=
  match latitude_number (latitude vals) with
  | Some n => if latitude_in_range n then [] else [("latitude", range_error n)]
  | None => []
  end.

(** Modelled from the spec: the module [./schema] that exports [spotSchema]
    is missing from the sources.  The spec has form validation reject
    malformed input, a latitude outside [-90, 90] being its example; every
    other rule is left to [rest].  Failures are collected, not cut short, as
    the resolver asks of yup. *)
Definition spec_spotSchema (vals : SpotValues) : SpotInput + issues :=
  match latitude_issues vals, rest vals with
  | [], r => r
  | e :: es, inl _ => inr (e, es)
  | e :: es, inr (e', es') => inr (e, es ++ e' :: es')
  end.

(** The imports of the form with that schema in place of the missing one. *)
Definition with_spec_schema (base : Imports) : Imports :=
  {| spotSchema := spec_spotSchema;
     validateFile := validateFile base;
     createObjectURL := createObjectURL base;
     button_default_type := button_default_type base |}.
End Schema.
End SpotSchema.

(** ** The locations page, [src/pages/Locations/index.tsx] *)

Module Locations.

(** [MetaPagination] of [@/types/pagination], lines 67-72. *)
Record MetaPagination : Type := {
  meta_page : Z;
  meta_limit : Z;
  meta_total : Z;
  meta_totalPages : Z;
}.

(** The pagination state of the table: a zero-based page index and a size. *)
Record PaginationState : Type := { pageIndex : Z; pageSize : Z }.

(** What [usePagination] of [@/hooks] hands to the page on a render; the
    hook itself is not among the sources. *)
Record PaginationHook : Type := {
  page : Z;
  limit : Z;
  pagination : PaginationState;
}.

Section Page.
(** An element of a list response before validation, a validated location,
    and [locationSchema.parse] of [./schema] between them. *)
Context {Raw LocationDTO : Type}.
Context (locationSchema : Raw -> LocationDTO + thrown).

(** The answer of [LocationService.getAll]. *)
Record ListResponse : Type := { data : list Raw; meta : MetaPagination }.

Record PageState : Type := mkPage {
  hook : PaginationHook;
  locations : list LocationDTO;
  page_meta : MetaPagination;
}.

Definition setLocations (l : list LocationDTO) : M PageState unit :=
  modify (fun s => mkPage (hook s) l (page_meta s)).
Definition setMeta (m : MetaPagination) : M PageState unit :=
  modify (fun s => mkPage (hook s) (locations s) m).

(** [z.array(locationSchema).parse]: every element parsed, or a throw.
    Only whether it throws is modelled; the error stands for the one zod
    builds out of all the failures. *)
Fixpoint z_array_parse (xs : list Raw) : list LocationDTO + thrown :=
  match xs with
  | [] => inl []
  | x :: rest =>
      match locationSchema x, z_array_parse rest with
      | inl v, inl vs => inl (v :: vs)
      | inr e, _ => inr e
      | inl _, inr e => inr e
      end
  end.

Definition parse_or_throw (xs : list Raw) : M PageState (list LocationDTO) :=
  match z_array_parse xs with
  | inl vs => ret vs
  | inr e => throw e
  end.

Local Open Scope eff_scope.

(** Lines 84-92. *)
Definition getLocations : async PageState ListResponse :=
  {| request := fun s => LocationService_getAll (page (hook s) + 1) (limit (hook s));
     resume := fun r =>
       do response <- settle r;
       do parsed <- parse_or_throw (data response);
       setLocations parsed;;
       setMeta (meta response) |}.

(** The first render, lines 64-72. *)
Definition initial (h : PaginationHook) : PageState :=
  {| hook := h; locations := [];
     page_meta := {| meta_page := 0; meta_limit := 0; meta_total := 0;
                     meta_totalPages := 0 |} |}.

(** The options given to [useReactTable], lines 74-82. *)
Record TableOptions : Type := {
  t_data : list LocationDTO;
  t_pagination : PaginationState;
  t_pageCount : Z;
}.

Definition table (s : PageState) : TableOptions :=
  {| t_data := locations s; t_pagination := pagination (hook s);
     t_pageCount := meta_totalPages (page_meta s) |}.

(** The page re-renders with new values from the hook, or the pending
    request settles. *)
Inductive event : Type :=
| PaginationChanged (h : PaginationHook)
| LocationsSettled (r : outcome ListResponse).

Definition handler (ev : event) : M PageState unit :=
  match ev with
  | PaginationChanged h => modify (fun s => mkPage h (locations s) (page_meta s))
  | LocationsSettled r => resume getLocations r
  end.

(** The effect of lines 94-96 runs after the first render. *)
Definition mount : M PageState unit := call getLocations.

(** One event, then the effect when [page] or [limit] is new. *)
Definition step (ev : event) (s : PageState) : PageState * list effect :=
  match handler ev s with
  | (s1, t1, _) =>
      if decide (page (hook s) = page (hook s1) /\ limit (hook s) = limit (hook s1))
      then (s1, t1)
      else match call getLocations s1 with
           | (s2, t2, _) => (s2, t1 ++ t2)
           end
  end.

Fixpoint run (evs : list event) (s : PageState) : PageState * list effect :=
  match evs with
  | [] => (s, [])
  | ev :: rest =>
      match step ev s with
      | (s1, t1) =>
          match run rest s1 with
          | (s2, t2) => (s2, t1 ++ t2)
          end
      end
  end.

Definition lifecycle (h : PaginationHook) (evs : list event)
    : PageState * list effect :=
  match mount (initial h) with
  | (s0, t0, _) =>
      match run evs s0 with
      | (s1, t1) => (s1, t0 ++ t1)
      end
  end.

(** The hook's [page] and [limit] are the index and the size of the
    pagination state it returns for the table. *)
Definition hook_coherent (h : PaginationHook) : Prop :=
  page h = pageIndex (pagination h) /\ limit h = pageSize (pagination h).

(** A record conforms to the schema when parsing yields it. *)
Definition conforms (l : LocationDTO) : Prop :=
  exists raw, locationSchema raw = inl l.
End Page.

Arguments ListResponse : clear implicits.
Arguments PageState : clear implicits.
Arguments TableOptions : clear implicits.
Arguments event : clear implicits.
End Locations.

(** ** Concrete imports and inputs, for examples *)

Module Samples.
Import SpotForm.

Definition required : FieldError :=
  {| fe_type := "required"; fe_message := Some "Campo obrigatório" |}.

(** A schema that asks for every field and for coordinates that are numbers. *)
Definition schema (v : SpotValues) : SpotInput + issues :=
  match name v, state_id v, city_id v, category_id v, preview v,
        latitude v, longitude v with
  | Some n, Some s, Some c, Some g, Some p, NumValue la, NumValue lo =>
      inl (mkSpotInput n s c g p la lo)
  | _, _, _, _, _, _, _ => inr (("name", required), [])
  end.

(** Only images pass; anything else throws an error with a message. *)
Definition validate (f : option File) : option thrown :=
  match f with
  | Some x =>
      if String.eqb (file_type x) "image/png" then None
      else Some (ThrownError (Some "Formato inválido"))
  | None => Some (ThrownError (Some "Arquivo não encontrado"))
  end.

Definition objectURL (f : option File) : string + thrown :=
  match f with
  | Some x => inl ("blob:" +:+ file_name x)
  | None => inr (ThrownError (Some "Failed to execute 'createObjectURL' on 'URL'"))
  end.

Definition imports : Imports :=
  {| spotSchema := schema; validateFile := validate; createObjectURL := objectURL;
     button_default_type := TypeSubmit |}.

Definition sao_paulo : SpotValues :=
  {| name := Some "Mirante"; state_id := Some "SP"; city_id := Some "3550308";
     category_id := Some "7"; preview := Some "blob:mirante.png";
     latitude := NumValue (Fin (120 # 1)); longitude := NumValue (Fin (-46 # 1)) |}.

Definition filled : FormState :=
  {| values := sao_paulo; errors := ∅; states := []; cities := [];
     categories := []; file := None |}.

Definition notes_txt : File :=
  {| file_name := "notes.txt"; file_type := "text/plain"; file_size := 12 |}.

Definition out_of_range : FieldError :=
  {| fe_type := "range"; fe_message := Some "Latitude inválida" |}.

Definition spot : SpotByIdDTO :=
  {| spot_name := "Mirante"; spot_preview := "https://cdn/mirante.png";
     spot_latitude := Fin (-23 # 1); spot_longitude := Fin (-46 # 1);
     spot_city := {| cref_id := "3550308"; cref_state := {| sref_id := "SP" |} |};
     spot_category := {| gref_id := "7" |}; spot_file := None |}.

(** A hook result whose [page] and [limit] are the table's index and size. *)
Definition third_page : Locations.PaginationHook :=
  {| Locations.page := 2; Locations.limit := 10;
     Locations.pagination := {| Locations.pageIndex := 2; Locations.pageSize := 10 |} |}.

(** Raw list elements are pairs of an id and a name; a location needs a name. *)
Definition location_schema (raw : string * string) : (string * string) + thrown :=
  if String.eqb raw.2 EmptyString then inr (ThrownError (Some "Required")) else inl raw.
End Samples.

(** ** Reading events and buttons *)

Module Events.
Import SpotForm.

(** Whether pressing the button submits the form: its declared type, or the
    one the UI kit gives it. *)
Definition submits (imports : Imports) (b : button) : bool :=
  match default (button_default_type imports) (b_type (button_props b)) with
  | TypeSubmit => true
  | TypeReset | TypeButton => false
  end.

Definition is_locations_fetch (e : effect) : bool :=
  match e with LocationService_getAll _ _ => true | _ => false end.

Definition is_pagination_change {Raw : Type} (ev : Locations.event Raw) : bool :=
  match ev with Locations.PaginationChanged _ => true | _ => false end.

(** The files, pictures and rows used in examples. *)
Definition photo_png : File :=
  {| file_name := "mirante.png"; file_type := "image/png"; file_size := 2048 |}.

Definition first_page : Locations.PaginationHook :=
  {| Locations.page := 0; Locations.limit := 10;
     Locations.pagination := {| Locations.pageIndex := 0; Locations.pageSize := 10 |} |}.

Definition sample_meta : Locations.MetaPagination :=
  {| Locations.meta_page := 1; Locations.meta_limit := 10;
     Locations.meta_total := 25; Locations.meta_totalPages := 3 |}.
End Events.

(** * Properties *)

Module SpotFormSpec.
Import SpotForm.

(** Unfolding the monad. *)
Ltac run_eff :=
  unfold bind, try_catch, get, modify, emit, ret, throw, settle, call,
         state_of, trace_of, result_of in *; cbn in *.

Lemma issues_non_empty (e : string * FieldError) (es : list (string * FieldError)) :
  (list_to_map (e :: es) : gmap string FieldError) <> ∅.
Proof. destruct e as [k v]. cbn. apply insert_non_empty. Qed.

Section Submission.
Context (imports : Imports).

(** A submission, computed: the schema decides. *)
Lemma form_onSubmit_run (s : FormState) :
  form_onSubmit imports s =
  match spotSchema imports (values s) with
  | inl payload => (with_errors (fun _ => ∅) s, [Props_onSubmit payload], inl tt)
  | inr (e, es) => (with_errors (fun _ => list_to_map (e :: es)) s, [], inl tt)
  end.
Proof.
  unfold form_onSubmit, handleSubmit, yupResolver, onSubmit. run_eff.
  destruct (spotSchema imports (values s)) as [payload | [e es]]; cbn.
  - rewrite decide_True by reflexivity. reflexivity.
  - rewrite decide_False by apply (issues_non_empty e es). reflexivity.
Qed.

(** C1.  A submission runs the schema on the form values.  When they pass,
    [onSubmit] is called once, with the payload the schema produced (a
    [SpotInput]: name, state_id, city_id, category_id, preview, latitude,
    longitude) and the form is left without errors; when they fail,
    [onSubmit] is not called and the failures become the form errors. *)
Theorem C1_submit_forwards_validated_payload (s : FormState) :
  let r := form_onSubmit imports s in
  result_of r = inl tt /\
  values (state_of r) = values s /\
  match spotSchema imports (values s) with
  | inl payload =>
      trace_of r = [Props_onSubmit payload] /\ errors (state_of r) = ∅
  | inr (e, es) =>
      trace_of r = [] /\
      errors (state_of r) = list_to_map (e :: es) /\
      errors (state_of r) <> ∅
  end.
Proof.
  cbv zeta. rewrite form_onSubmit_run.
  destruct (spotSchema imports (values s)) as [payload | [e es]]; cbn.
  - auto.
  - repeat split. apply (issues_non_empty e es).
Qed.
End Submission.

Section Latitude.
Context (cast_number : string -> number) (range_error : number -> FieldError).
Context (rest : SpotValues -> SpotInput + issues) (base : Imports).

(** C2.  With the schema of the spec, a form whose latitude lies outside
    [-90, 90] is rejected on submission: [onSubmit] is not called, and the
    latitude field carries an error, which the latitude input displays. *)
Theorem C2_latitude_out_of_range_rejected (spot : option SpotByIdDTO)
    (s : FormState) (n : number) :
  SpotSchema.latitude_number cast_number (latitude (values s)) = Some n ->
  SpotSchema.latitude_in_range n = false ->
  let imports := SpotSchema.with_spec_schema cast_number range_error rest base in
  let r := form_onSubmit imports s in
  trace_of r = [] /\
  errors (state_of r) !! "latitude" = Some (range_error n) /\
  v_latitude_error (render spot (state_of r)) = fe_message (range_error n).
Proof.
  intros Hn Hout. cbv zeta. rewrite form_onSubmit_run. cbn.
  unfold SpotSchema.spec_spotSchema, SpotSchema.latitude_issues.
  rewrite Hn, Hout.
  destruct (rest (values s)) as [payload | [e es]]; cbn;
    unfold error_message; cbn; rewrite lookup_insert_eq; auto.
Qed.
End Latitude.

(** C2 at a form whose latitude is 120. *)
Lemma C2_witness :
  let imports :=
    SpotSchema.with_spec_schema (fun _ => NaN) (fun _ => Samples.out_of_range)
      Samples.schema Samples.imports in
  SpotSchema.latitude_number (fun _ => NaN) (latitude (values Samples.filled))
    = Some (Fin (120 # 1)) /\
  SpotSchema.latitude_in_range (Fin (120 # 1)) = false /\
  trace_of (form_onSubmit imports Samples.filled) = [] /\
  errors (state_of (form_onSubmit imports Samples.filled)) !! "latitude"
    = Some Samples.out_of_range.
Proof.
  cbv zeta. split; [reflexivity|]. split; [reflexivity|].
  pose proof (C2_latitude_out_of_range_rejected (fun _ => NaN)
                (fun _ => Samples.out_of_range) Samples.schema Samples.imports
                None Samples.filled (Fin (120 # 1)) eq_refl eq_refl) as H.
  cbv zeta in H. destruct H as (H1 & H2 & _). split; assumption.
Defined.

Section View.
Context (imports : Imports) (spot : option SpotByIdDTO).

(** C3.  The city selector is disabled exactly when [state_id] is empty
    (undefined or the empty string); after a state is selected it is
    disabled only if the selected value is the empty string. *)
Theorem C3_city_select_disabled_iff_no_state (s : FormState) :
  (sel_disabled (v_city (render spot s)) = true <->
     (state_id (values s) = None \/ state_id (values s) = Some EmptyString)) /\
  (forall v : string,
     sel_disabled (v_city (render spot (step imports spot (StateSelected v) s).1))
       = String.eqb v EmptyString).
Proof.
  split.
  - cbn. unfold stateId. destruct (state_id (values s)) as [x|]; cbn.
    + rewrite negb_involutive, String.eqb_eq. split.
      * intros ->. now right.
      * intros [H|H]; congruence.
    + split; auto.
  - intros v. unfold step, handler, setValue_state_id, effect_stateId. run_eff.
    destruct (decide _) as [_|_]; cbn.
    + now rewrite negb_involutive.
    + unfold stateId. cbn. destruct (String.eqb v EmptyString) eqn:E; cbn;
        unfold stateId; cbn; rewrite E; reflexivity.
Qed.

(** C7.  With a spot, the defaults of the form are the spot's current
    values: name, preview, latitude and longitude of the spot, [city_id]
    from [spot.city.id], [state_id] from [spot.city.state.id], [category_id]
    from [spot.category.id]; without a spot every default is undefined.
    The first render holds the defaults, and the state list arriving for
    an existing spot sets [state_id] to [spot.city.state.id] again. *)
Theorem C7_defaults_follow_the_spot (sp : SpotByIdDTO) (file0 : option File)
    (s : FormState) (data : list StateDTO) :
  defaultValues (Some sp) =
    {| name := Some (spot_name sp);
       state_id := Some (sref_id (cref_state (spot_city sp)));
       city_id := Some (cref_id (spot_city sp));
       category_id := Some (gref_id (spot_category sp));
       preview := Some (spot_preview sp);
       latitude := NumValue (spot_latitude sp);
       longitude := NumValue (spot_longitude sp) |} /\
  defaultValues None =
    {| name := None; state_id := None; city_id := None; category_id := None;
       preview := None; latitude := NumUndefined; longitude := NumUndefined |} /\
  values (initial spot file0) = defaultValues spot /\
  state_id (values (state_of (resume (getStates (Some sp)) (Resolved data) s)))
    = Some (sref_id (cref_state (spot_city sp))).
Proof. repeat split. Qed.

(** Pressing a button that only submits is a submission. *)
Lemma click_submit_only (label : string) (variant : option string) (s : FormState) :
  click imports {| b_children := label; b_type := Some TypeSubmit;
                   b_variant := variant; b_onClick := None |} s
  = form_onSubmit imports s.
Proof.
  unfold click. cbn [b_onClick b_type from_option id]. unfold bind, ret.
  rewrite form_onSubmit_run.
  destruct (spotSchema imports (values s)) as [payload | [e es]]; reflexivity.
Qed.

(** C8.  "Cancelar" is declared with [type="submit"] and no handler of its
    own, so pressing it runs [handleSubmit(onSubmit)], exactly as "Salvar"
    does, and keeps the field values.  The form offers nothing that discards
    it: its buttons are "Localização atual", "Cancelar" and "Salvar", none is
    declared a reset button, and each of the last two is a submission. *)
Theorem C8_cancel_button_submits (s : FormState) :
  b_type (button_props BtnCancelar) = Some TypeSubmit /\
  b_onClick (button_props BtnCancelar) = None /\
  handler imports spot (Click BtnCancelar) s = form_onSubmit imports s /\
  handler imports spot (Click BtnCancelar) s = handler imports spot (Click BtnSalvar) s /\
  values (state_of (handler imports spot (Click BtnCancelar) s)) = values s /\
  v_buttons (render spot s) = button_props <$> [BtnLocation; BtnCancelar; BtnSalvar] /\
  Forall (fun p => b_type p <> Some TypeReset) (v_buttons (render spot s)) /\
  (forall b : button,
     match b with
     | BtnLocation => b_onClick (button_props b) = Some (call getCurrentLocation)
     | BtnCancelar | BtnSalvar =>
         handler imports spot (Click b) s = form_onSubmit imports s
     end).
Proof.
  split; [reflexivity|]. split; [reflexivity|].
  split; [apply click_submit_only|].
  split; [unfold handler, button_props; now rewrite !click_submit_only|].
  split.
  { unfold handler, button_props. rewrite click_submit_only, form_onSubmit_run.
    destruct (spotSchema imports (values s)) as [payload | [e es]]; reflexivity. }
  split; [reflexivity|].
  split; [cbn; repeat constructor; discriminate|].
  intros [ | | ]; [reflexivity | apply click_submit_only ..].
Qed.

(** C9.  When [validateFile] throws on the chosen file, the handler sets
    the file to undefined and puts a custom error, with the message of what
    was thrown, on the preview field; the preview value is not touched, so
    what the preview box shows is what it showed before. *)
Theorem C9_rejected_file_keeps_preview (currentFile : option File) (e : thrown)
    (s : FormState) :
  validateFile imports currentFile = Some e ->
  let r := onChange_file imports currentFile s in
  result_of r = inl tt /\
  file (state_of r) = None /\
  errors (state_of r) !! "preview"
    = Some {| fe_type := "custom"; fe_message := message_of e |} /\
  preview (values (state_of r)) = preview (values s) /\
  v_preview (render spot (state_of r)) = v_preview (render spot s).
Proof.
  intros Hthrow. cbv zeta.
  unfold onChange_file, run_validateFile, setError, setFile. rewrite Hthrow.
  run_eff. rewrite lookup_insert_eq. auto.
Qed.
End View.

(** C9 at a text file picked while a preview is shown. *)
Lemma C9_witness :
  validateFile Samples.imports (Some Samples.notes_txt)
    = Some (ThrownError (Some "Formato inválido")) /\
  file (state_of (onChange_file Samples.imports (Some Samples.notes_txt) Samples.filled))
    = None /\
  v_preview (render None
     (state_of (onChange_file Samples.imports (Some Samples.notes_txt) Samples.filled)))
    = Img "blob:mirante.png" (Some "Mirante").
Proof.
  split; [reflexivity|].
  pose proof (C9_rejected_file_keeps_preview Samples.imports None
                (Some Samples.notes_txt) (ThrownError (Some "Formato inválido"))
                Samples.filled eq_refl) as H.
  cbv zeta in H. destruct H as (_ & H1 & _ & _ & H2).
  split; [exact H1|]. rewrite H2. reflexivity.
Defined.

Section Loading.
Context (imports : Imports) (spot : option SpotByIdDTO).

(** No handler asks for a reference list: requests only come from effects. *)
Lemma handler_no_fetch (ev : event) (s : FormState) :
  Forall (fun e => is_reference_fetch e = false)
         (trace_of (handler imports spot ev s)).
Proof.
  destruct ev as [v|v|v|v|v|v|cur|b|r|r|r|r]; cbn.
  1-6: constructor.
  - unfold onChange_file, run_validateFile, run_createObjectURL.
    destruct (validateFile imports cur); run_eff; [constructor|].
    destruct (createObjectURL imports cur); run_eff; constructor.
  - destruct b; unfold button_props.
    + unfold click. cbn [b_onClick b_type from_option id].
      unfold call, bind, get, emit, ret, trace_of.
      destruct (button_default_type imports); cbn [fst snd].
      * rewrite form_onSubmit_run.
        destruct (spotSchema imports (values s)) as [payload | [e es]];
          cbn; repeat constructor.
      * repeat constructor.
      * repeat constructor.
    + rewrite click_submit_only, form_onSubmit_run.
      destruct (spotSchema imports (values s)) as [payload | [e es]];
        cbn; repeat constructor.
    + rewrite click_submit_only, form_onSubmit_run.
      destruct (spotSchema imports (values s)) as [payload | [e es]];
        cbn; repeat constructor.
  - destruct r, spot; run_eff; repeat constructor.
  - destruct r; run_eff; repeat constructor.
  - destruct r; run_eff; repeat constructor.
  - destruct r; run_eff; repeat constructor.
Qed.

Lemma filter_none (f : effect -> bool) (t : list effect) :
  Forall (fun e => f e = false) t -> List.filter f t = [].
Proof.
  induction 1 as [|e t He _ IH]; cbn; [reflexivity|]. now rewrite He.
Qed.

Lemma no_fetch_weaken (f : effect -> bool) (t : list effect) :
  (forall e, f e = true -> is_reference_fetch e = true) ->
  Forall (fun e => is_reference_fetch e = false) t ->
  Forall (fun e => f e = false) t.
Proof.
  intros Hf Ht. eapply Forall_impl; [exact Ht|]. intros e He. cbn beta in *.
  destruct (f e) eqn:E; [|reflexivity]. apply Hf in E. congruence.
Qed.

(** The effect on [stateId], computed. *)
Lemma effect_stateId_run (s : FormState) :
  effect_stateId s =
  (s, if truthy (stateId s) then [StateService_getById (stateId s)] else [], inl tt).
Proof.
  unfold effect_stateId. run_eff. destruct (truthy (stateId s)); reflexivity.
Qed.

(** After an event, the cities are requested when [state_id] is new and
    not empty, for the new [state_id], and not otherwise. *)
Lemma step_cities (ev : event) (s : FormState) :
  List.filter is_cities_fetch (step imports spot ev s).2 =
  if decide (stateId s = stateId (step imports spot ev s).1) then []
  else if truthy (stateId (step imports spot ev s).1)
       then [StateService_getById (stateId (step imports spot ev s).1)]
       else [].
Proof.
  unfold step. pose proof (handler_no_fetch ev s) as Hh.
  destruct (handler imports spot ev s) as [[s1 t1] r1]. unfold trace_of in Hh.
  cbn [fst snd] in Hh.
  assert (List.filter is_cities_fetch t1 = []) as Ht1.
  { apply filter_none. apply no_fetch_weaken; [|exact Hh].
    intros e He. unfold is_reference_fetch. rewrite He. apply orb_true_r. }
  rewrite effect_stateId_run.
  destruct (decide (stateId s = stateId s1)) as [Heq|Hne]; cbn [fst snd].
  - now rewrite decide_True.
  - rewrite decide_False by assumption. rewrite List.filter_app, Ht1.
    destruct (truthy (stateId s1)); reflexivity.
Qed.

(** Events never ask for the states or the categories. *)
Lemma step_no_states_categories (ev : event) (s : FormState) :
  List.filter is_states_fetch (step imports spot ev s).2 = [] /\
  List.filter is_categories_fetch (step imports spot ev s).2 = [].
Proof.
  unfold step. pose proof (handler_no_fetch ev s) as Hh.
  destruct (handler imports spot ev s) as [[s1 t1] r1]. unfold trace_of in Hh.
  cbn [fst snd] in Hh. rewrite effect_stateId_run.
  assert (List.filter is_states_fetch t1 = [] /\
          List.filter is_categories_fetch t1 = []) as [Hs Hc].
  { split; apply filter_none; (apply no_fetch_weaken; [|exact Hh]);
      intros e He; destruct e; cbn in *; congruence. }
  destruct (decide (stateId s = stateId s1)); cbn [fst snd]; [auto|].
  rewrite !List.filter_app, Hs, Hc.
  destruct (truthy (stateId s1)); auto.
Qed.

Lemma run_no_states_categories (evs : list event) (s : FormState) :
  List.filter is_states_fetch (run imports spot evs s).2 = [] /\
  List.filter is_categories_fetch (run imports spot evs s).2 = [].
Proof.
  revert s. induction evs as [|ev evs IH]; intros s; cbn; [auto|].
  pose proof (step_no_states_categories ev s) as [Hs Hc].
  destruct (step imports spot ev s) as [s1 t1]. specialize (IH s1).
  destruct (run imports spot evs s1) as [s2 t2]. cbn [fst snd] in *.
  rewrite !List.filter_app, Hs, Hc. destruct IH as [-> ->]. auto.
Qed.

(** C5, as the code has it.  The states and the categories are requested
    once, by the mount effects, and by no later event.  The cities are
    requested on mount when the initial [state_id] is not empty, and after
    an event exactly when that event left [state_id] changed and not empty;
    the request is for the new [state_id]. *)
Theorem C5_reference_lists_loading (file0 : option File) (evs : list event)
    (ev : event) (s : FormState) :
  let s0 := initial spot file0 in
  List.filter is_states_fetch (trace_of (mount spot s0)) = [StateService_getAll] /\
  List.filter is_categories_fetch (trace_of (mount spot s0))
    = [CategoryService_getAll 1 9999] /\
  List.filter is_states_fetch (lifecycle imports spot file0 evs).2
    = [StateService_getAll] /\
  List.filter is_categories_fetch (lifecycle imports spot file0 evs).2
    = [CategoryService_getAll 1 9999] /\
  List.filter is_cities_fetch (trace_of (mount spot s0))
    = (if truthy (stateId s0) then [StateService_getById (stateId s0)] else []) /\
  List.filter is_cities_fetch (step imports spot ev s).2
    = (if decide (stateId s = stateId (step imports spot ev s).1) then []
       else if truthy (stateId (step imports spot ev s).1)
            then [StateService_getById (stateId (step imports spot ev s).1)]
            else []).
Proof.
  cbv zeta.
  assert (mount spot (initial spot file0) =
          (initial spot file0,
           (if truthy (stateId (initial spot file0))
            then [StateService_getById (stateId (initial spot file0))] else [])
           ++ [CategoryService_getAll 1 9999; StateService_getAll], inl tt)) as Hm.
  { unfold mount, effect_mount, bind. rewrite effect_stateId_run. reflexivity. }
  assert (forall f, List.filter f (lifecycle imports spot file0 evs).2 =
            List.filter f (trace_of (mount spot (initial spot file0)))
            ++ List.filter f (run imports spot evs (initial spot file0)).2) as Hl.
  { intros f. unfold lifecycle. rewrite Hm.
    destruct (run imports spot evs (initial spot file0)) as [s1 t1].
    unfold trace_of. cbn [fst snd]. apply List.filter_app. }
  pose proof (run_no_states_categories evs (initial spot file0)) as [Hs Hc].
  rewrite !Hl, Hs, Hc, Hm. unfold trace_of. cbn [fst snd].
  rewrite !List.filter_app.
  repeat split; try (destruct (truthy (stateId (initial spot file0))); reflexivity).
  apply step_cities.
Qed.
End Loading.

(** C5 as stated fails: the cities are also requested when [state_id]
    has not changed at all.  A form that edits an existing spot starts with
    the state of the spot as [state_id], and asks for the cities of that
    state on mount, before any event. *)
Lemma C5_cities_fetched_on_mount_without_change :
  ~ (forall (imports : Imports) (spot : option SpotByIdDTO) (file0 : option File),
       List.filter is_cities_fetch (lifecycle imports spot file0 []).2 = []).
Proof.
  intros H. specialize (H Samples.imports (Some Samples.spot) None).
  discriminate H.
Qed.
End SpotFormSpec.

Module LocationsSpec.
Import Locations.

(** The four actions of the spot form catch what the awaited call rejects
    with and show it in a toast. *)
Lemma spot_form_actions_catch (spot : option SpotByIdDTO) (e : thrown)
    (s : SpotForm.FormState) :
  resume (SpotForm.getStates spot) (Rejected e) s
    = (s, [Toast_error (nullish_or e "Ocorreu um erro ao listar estados.")], inl tt) /\
  resume SpotForm.getCities (Rejected e) s
    = (s, [Toast_error (nullish_or e "Ocorreu um erro ao listar cidades.")], inl tt) /\
  resume SpotForm.getCategories (Rejected e) s
    = (s, [Toast_error (nullish_or e "Ocorreu um erro ao listar categorias.")], inl tt) /\
  resume SpotForm.getCurrentLocation (Rejected e) s
    = (s, [Toast_error (nullish_or e "Ocorreu um erro ao buscar localização.")], inl tt).
Proof. repeat split. Qed.

Section Page.
Context {Raw LocationDTO : Type} (locationSchema : Raw -> LocationDTO + thrown).

(** C4 fails on the locations page: [getLocations] has no [try]/[catch], so
    a rejection of [LocationService.getAll] leaves the action as it came,
    with no toast and the page state untouched. *)
Theorem C4_getLocations_rejection_escapes (e : thrown) (s : PageState LocationDTO) :
  resume (getLocations locationSchema) (Rejected e) s = (s, [], inr e).
Proof. reflexivity. Qed.

Lemma z_array_parse_conforms (xs : list Raw) (vs : list LocationDTO) :
  z_array_parse locationSchema xs = inl vs -> Forall (conforms locationSchema) vs.
Proof.
  revert vs. induction xs as [|x xs IH]; intros vs; cbn.
  - intros [= <-]. constructor.
  - destruct (locationSchema x) as [v|e] eqn:Hx; [|discriminate].
    destruct (z_array_parse locationSchema xs) as [ws|e]; [|discriminate].
    intros [= <-]. constructor; [now exists x | now apply IH].
Qed.

(** What the answer of a request does to the page. *)
Lemma resume_getLocations_run (response : ListResponse Raw) (s : PageState LocationDTO) :
  resume (getLocations locationSchema) (Resolved response) s =
  match z_array_parse locationSchema (data response) with
  | inl vs => (mkPage (hook s) vs (meta response), [], inl tt)
  | inr e => (s, [], inr e)
  end.
Proof.
  cbn. unfold parse_or_throw, bind.
  destruct (z_array_parse locationSchema (data response)); reflexivity.
Qed.

(** An event, computed: at most one request, for the values of the hook. *)
Lemma step_run (ev : event Raw) (s : PageState LocationDTO) :
  let s' := (step locationSchema ev s).1 in
  state_of (handler locationSchema ev s) = s' /\
  (step locationSchema ev s).2 =
    if decide (page (hook s) = page (hook s') /\ limit (hook s) = limit (hook s'))
    then []
    else [LocationService_getAll (page (hook s') + 1) (limit (hook s'))].
Proof.
  cbv zeta. unfold step.
  assert (trace_of (handler locationSchema ev s) = []) as Ht.
  { destruct ev as [h|[response|e]]; try reflexivity.
    unfold handler. rewrite resume_getLocations_run.
    destruct (z_array_parse locationSchema (data response)); reflexivity. }
  destruct (handler locationSchema ev s) as [[s1 t1] r1].
  unfold trace_of, state_of in *. cbn [fst snd] in *. subst t1.
  destruct (decide _) as [Heq|Hne]; cbn [fst snd].
  - rewrite decide_True by assumption. auto.
  - rewrite decide_False by assumption. auto.
Qed.

Lemma handler_conforms (ev : event Raw) (s : PageState LocationDTO) :
  Forall (conforms locationSchema) (locations s) ->
  Forall (conforms locationSchema)
         (locations (state_of (handler locationSchema ev s))).
Proof.
  intros Hs. destruct ev as [h|[response|e]]; try exact Hs.
  unfold handler. rewrite resume_getLocations_run.
  destruct (z_array_parse locationSchema (data response)) as [vs|e] eqn:Hp.
  - cbn. eapply z_array_parse_conforms, Hp.
  - exact Hs.
Qed.

Lemma run_conforms (evs : list (event Raw)) (s : PageState LocationDTO) :
  Forall (conforms locationSchema) (locations s) ->
  Forall (conforms locationSchema) (locations (run locationSchema evs s).1).
Proof.
  revert s. induction evs as [|ev evs IH]; intros s Hs; cbn; [exact Hs|].
  pose proof (step_run ev s) as [Hst _]. pose proof (handler_conforms ev s Hs) as Hh.
  rewrite Hst in Hh.
  destruct (step locationSchema ev s) as [s1 t1]. specialize (IH s1 Hh).
  destruct (run locationSchema evs s1) as [s2 t2]. exact IH.
Qed.

(** C6.  Whatever the page has been through, [locations] holds only
    records that [locationSchema] produced.  An answer whose list parses
    assigns the parsed records to [locations] and the answer's [meta] to the
    pagination metadata; an answer that does not parse assigns nothing. *)
Theorem C6_locations_hold_parsed_records (h : PaginationHook)
    (evs : list (event Raw)) (response : ListResponse Raw)
    (s : PageState LocationDTO) :
  Forall (conforms locationSchema)
         (locations (lifecycle locationSchema h evs).1) /\
  state_of (handler locationSchema (LocationsSettled (Resolved response)) s) =
    match z_array_parse locationSchema (data response) with
    | inl vs => {| hook := hook s; locations := vs; page_meta := meta response |}
    | inr _ => s
    end.
Proof.
  split.
  - unfold lifecycle, mount, call, bind, get, emit.
    pose proof (run_conforms evs (initial h)) as Hr.
    destruct (run locationSchema evs (initial h)) as [s1 t1].
    apply Hr. constructor.
  - unfold handler. rewrite resume_getLocations_run.
    destruct (z_array_parse locationSchema (data response)); reflexivity.
Qed.

(** C10.  Every request of the page goes out with the table's zero-based
    page index plus one as [page] and the table's page size as [limit]:
    the one sent on mount, and the one sent after an event that changed
    [page] or [limit]; no event sends more than one.  The hook's [page] and
    [limit] are taken to be the index and size of its pagination state. *)
Theorem C10_page_sent_is_index_plus_one (h : PaginationHook) (ev : event Raw)
    (s : PageState LocationDTO) :
  let s' := (step locationSchema ev s).1 in
  hook_coherent h ->
  hook_coherent (hook s') ->
  trace_of (mount locationSchema (initial h))
    = [LocationService_getAll (pageIndex (pagination h) + 1) (pageSize (pagination h))] /\
  request (getLocations locationSchema) s
    = LocationService_getAll (page (hook s) + 1) (limit (hook s)) /\
  ((step locationSchema ev s).2 = [] \/
   (step locationSchema ev s).2
     = [LocationService_getAll (pageIndex (t_pagination (table s')) + 1)
                               (pageSize (t_pagination (table s')))]).
Proof.
  cbv zeta. intros [Hp Hl] [Hp' Hl'].
  split; [cbn; now rewrite Hp, Hl|]. split; [reflexivity|].
  pose proof (step_run ev s) as [_ Ht]. rewrite Ht.
  destruct (decide _); [now left|right].
  cbn [table t_pagination]. now rewrite Hp', Hl'.
Qed.
End Page.

(** C10 at the third page of ten rows. *)
Lemma C10_witness :
  hook_coherent Samples.third_page /\
  trace_of (mount Samples.location_schema (initial Samples.third_page))
    = [LocationService_getAll 3 10].
Proof.
  assert (hook_coherent Samples.third_page) as Hc by (split; reflexivity).
  split; [exact Hc|].
  pose proof (C10_page_sent_is_index_plus_one Samples.location_schema
                Samples.third_page (PaginationChanged Samples.third_page)
                (initial Samples.third_page) Hc Hc) as H.
  destruct H as (H & _ & _). exact H.
Defined.
End LocationsSpec.

(** ** The machines on concrete runs *)

Module Runs.
Import SpotForm.

(** Editing a spot of São Paulo: the cities of its state are asked for on
    mount, before the categories and the states. *)
Example edit_mount :
  (lifecycle Samples.imports (Some Samples.spot) None []).2
  = [StateService_getById (Some "SP"); CategoryService_getAll 1 9999;
     StateService_getAll].
Proof. reflexivity. Qed.

(** Creating a spot: nothing about cities until a state is selected;
    selecting the same state again asks for nothing. *)
Example create_then_select :
  (lifecycle Samples.imports None None
     [StatesSettled (Resolved [{| st_id := "SP"; st_name := "São Paulo" |}]);
      StateSelected "SP"; StateSelected "SP"; StateSelected "RJ"]).2
  = [CategoryService_getAll 1 9999; StateService_getAll;
     StateService_getById (Some "SP"); StateService_getById (Some "RJ")].
Proof. reflexivity. Qed.

(** A rejected request for the states ends in a toast with the rejection. *)
Example states_rejected :
  (step Samples.imports None (StatesSettled (Rejected (ThrownString "401")))
        (initial None None)).2
  = [Toast_error (ThrownString "401")].
Proof. reflexivity. Qed.

(** A latitude of 120 passes the sample schema, which has no range rule. *)
Example submit_sample :
  trace_of (handler Samples.imports None (Click BtnSalvar) Samples.filled)
  = [Props_onSubmit (mkSpotInput "Mirante" "SP" "3550308" "7" "blob:mirante.png"
                       (Fin (120 # 1)) (Fin (-46 # 1)))].
Proof. reflexivity. Qed.

(** The locations page: mount on the first page, then the table moves to
    the third; the second answer has a nameless row and is thrown away. *)
Example locations_run :
  let first := {| Locations.page := 0; Locations.limit := 10;
                  Locations.pagination :=
                    {| Locations.pageIndex := 0; Locations.pageSize := 10 |} |} in
  let meta := {| Locations.meta_page := 1; Locations.meta_limit := 10;
                 Locations.meta_total := 25; Locations.meta_totalPages := 3 |} in
  let r := Locations.lifecycle Samples.location_schema first
             [Locations.LocationsSettled
                (Resolved {| Locations.data := [("1", "Mirante")];
                             Locations.meta := meta |});
              Locations.PaginationChanged Samples.third_page;
              Locations.LocationsSettled
                (Resolved {| Locations.data := [("2", EmptyString)];
                             Locations.meta := meta |})] in
  r.2 = [LocationService_getAll 1 10; LocationService_getAll 3 10] /\
  Locations.locations r.1 = [("1", "Mirante")].
Proof. split; reflexivity. Qed.
End Runs.

(** * Further properties of the spot form *)

Module SpotFormMore.
Import SpotForm SpotFormSpec Events.

Section Form.
Context (imports : Imports) (spot : option SpotByIdDTO).

(** An event, computed from its handler: the handler's calls, then the
    request for the cities when [state_id] is new and not empty. *)
Lemma step_unfold (ev : event) (s : FormState) :
  step imports spot ev s =
  (state_of (handler imports spot ev s),
   trace_of (handler imports spot ev s) ++
   (if decide (stateId s = stateId (state_of (handler imports spot ev s))) then []
    else if truthy (stateId (state_of (handler imports spot ev s)))
         then [StateService_getById (stateId (state_of (handler imports spot ev s)))]
         else [])).
Proof.
  unfold step. destruct (handler imports spot ev s) as [[s1 t1] r1].
  unfold state_of, trace_of. cbn [fst snd]. rewrite effect_stateId_run.
  destruct (decide (stateId s = stateId s1)); [now rewrite app_nil_r|reflexivity].
Qed.

(** The image input, computed. *)
Lemma onChange_file_run (currentFile : option File) (s : FormState) :
  onChange_file imports currentFile s =
  match validateFile imports currentFile with
  | Some e =>
      (mkState (values s)
               (<["preview" := {| fe_type := "custom"; fe_message := message_of e |}]>
                  (errors s))
               (states s) (cities s) (categories s) None, [], inl tt)
  | None =>
      match createObjectURL imports currentFile with
      | inl url =>
          (mkState (mkValues (name (values s)) (state_id (values s))
                             (city_id (values s)) (category_id (values s))
                             (Some url) (latitude (values s)) (longitude (values s)))
                   (delete "preview" (errors s))
                   (states s) (cities s) (categories s) currentFile, [], inl tt)
      | inr e =>
          (mkState (values s)
                   (<["preview" := {| fe_type := "custom"; fe_message := message_of e |}]>
                      (errors s))
                   (states s) (cities s) (categories s) None, [], inl tt)
      end
  end.
Proof.
  unfold onChange_file, run_validateFile, run_createObjectURL.
  destruct (validateFile imports currentFile) as [e|]; [reflexivity|].
  destruct (createObjectURL imports currentFile) as [url|e]; reflexivity.
Qed.

(** Picking a file never throws out of the handler and calls nothing
    outside the form.  It ends in one of two ways.  Accepted: the file state
    is the picked file, the preview is its object URL and the preview field
    has no error.  Refused (by [validateFile], or by [URL.createObjectURL]
    after the file state was already set): the file state is undefined, the
    preview value is the previous one and the preview field carries a custom
    error with the message of what was thrown.  The other fields, the other
    errors and the lists are as before in both. *)
Theorem file_input_accepts_or_refuses (currentFile : option File) (s : FormState) :
  let r := onChange_file imports currentFile s in
  let s' := state_of r in
  result_of r = inl tt /\ trace_of r = [] /\
  states s' = states s /\ cities s' = cities s /\ categories s' = categories s /\
  (forall path : string, path <> "preview" -> errors s' !! path = errors s !! path) /\
  name (values s') = name (values s) /\ state_id (values s') = state_id (values s) /\
  city_id (values s') = city_id (values s) /\
  category_id (values s') = category_id (values s) /\
  latitude (values s') = latitude (values s) /\
  longitude (values s') = longitude (values s) /\
  ((exists url : string,
      validateFile imports currentFile = None /\
      createObjectURL imports currentFile = inl url /\
      file s' = currentFile /\ preview (values s') = Some url /\
      errors s' !! "preview" = None)
   \/
   (exists e : thrown,
      (validateFile imports currentFile = Some e \/
       (validateFile imports currentFile = None /\
        createObjectURL imports currentFile = inr e)) /\
      file s' = None /\ preview (values s') = preview (values s) /\
      errors s' !! "preview"
        = Some {| fe_type := "custom"; fe_message := message_of e |})).
Proof.
  cbv zeta. rewrite onChange_file_run.
  destruct (validateFile imports currentFile) as [e|] eqn:Hv;
    [|destruct (createObjectURL imports currentFile) as [url|e] eqn:Hu];
    unfold state_of, trace_of, result_of; cbn [fst snd values errors states cities
      categories file name state_id city_id category_id preview latitude longitude].
  - repeat (split; [try reflexivity|]).
    + intros path Hp. now rewrite lookup_insert_ne.
    + right. exists e. rewrite lookup_insert_eq. auto.
  - repeat (split; [try reflexivity|]).
    + intros path Hp. now rewrite lookup_delete_ne.
    + left. exists url. rewrite lookup_delete_eq. auto.
  - repeat (split; [try reflexivity|]).
    + intros path Hp. now rewrite lookup_insert_ne.
    + right. exists e. rewrite lookup_insert_eq. auto.
Qed.

(** A refused file after an accepted one: the accepted file is dropped
    from the file state and its name from the placeholder, which falls back
    to the spot's file name or to "Buscar imagem", while the preview box
    keeps showing the accepted file's object URL, next to the error. *)
Theorem refused_file_drops_the_accepted_one (f g : option File) (url : string)
    (e : thrown) (s : FormState) :
  validateFile imports f = None ->
  createObjectURL imports f = inl url ->
  validateFile imports g = Some e ->
  let s1 := state_of (onChange_file imports f s) in
  let s2 := state_of (onChange_file imports g s1) in
  file s1 = f /\ file s2 = None /\
  preview (values s2) = Some url /\
  v_preview (render spot s2) = v_preview (render spot s1) /\
  v_file_error (render spot s2) = message_of e /\
  v_file_placeholder (render spot s2)
    = default "Buscar imagem" (fref_name <$> (spot ≫= spot_file)).
Proof.
  intros Hf Hu Hg. cbv zeta. rewrite !onChange_file_run, Hf, Hu.
  unfold state_of. cbn [fst snd]. rewrite Hg.
  cbn [fst snd values errors states cities categories file preview name].
  repeat (split; [reflexivity|]). split; [|reflexivity].
  unfold render, error_message. cbn [v_file_error errors].
  now rewrite lookup_insert_eq.
Qed.

(** Pressing a button, computed: the location button first asks for the
    position; then the form is submitted when the button's type says so. *)
Lemma click_run (b : button) (s : FormState) :
  handler imports spot (Click b) s =
  (if submits imports b then state_of (form_onSubmit imports s) else s,
   match b with BtnLocation => [Utils_getLocation] | _ => [] end ++
   (if submits imports b then trace_of (form_onSubmit imports s) else []),
   inl tt).
Proof.
  destruct b; unfold handler, button_props, submits.
  - unfold click, button_props. cbn [b_onClick b_type from_option id].
    unfold call, bind, get, emit, ret.
    destruct (button_default_type imports); try reflexivity.
    rewrite form_onSubmit_run.
    destruct (spotSchema imports (values s)) as [payload | [e es]]; reflexivity.
  - cbn [button_props b_type from_option id]. rewrite click_submit_only, form_onSubmit_run.
    destruct (spotSchema imports (values s)) as [payload | [e es]]; reflexivity.
  - cbn [button_props b_type from_option id]. rewrite click_submit_only, form_onSubmit_run.
    destruct (spotSchema imports (values s)) as [payload | [e es]]; reflexivity.
Qed.

(** Toasts come from rejected requests and from nothing else.  A request
    of the form that is rejected leaves the form exactly as it was and shows
    one toast: what it was rejected with, or, when that is null or
    undefined, the text of the action ("Ocorreu um erro ao listar estados.",
    "... cidades.", "... categorias.", "Ocorreu um erro ao buscar
    localização.").  No other event shows a toast: validation failures and
    refused files never do. *)
Theorem toasts_come_from_rejections (ev : event) (s : FormState) :
  let toast (e : thrown) (text : string) : FormState * list effect :=
    (s, [Toast_error (match e with
                      | ThrownNullish => ThrownString text
                      | _ => e
                      end)]) in
  match ev with
  | StatesSettled (Rejected e) =>
      step imports spot ev s = toast e "Ocorreu um erro ao listar estados."
  | CitiesSettled (Rejected e) =>
      step imports spot ev s = toast e "Ocorreu um erro ao listar cidades."
  | CategoriesSettled (Rejected e) =>
      step imports spot ev s = toast e "Ocorreu um erro ao listar categorias."
  | LocationSettled (Rejected e) =>
      step imports spot ev s = toast e "Ocorreu um erro ao buscar localização."
  | _ => List.filter is_toast (step imports spot ev s).2 = []
  end.
Proof.
  assert (forall id, List.filter is_toast
            (if decide (stateId s = id) then []
             else if truthy id then [StateService_getById id] else []) = []) as Hc.
  { intros id. destruct (decide _); [reflexivity|]. now destruct (truthy id). }
  cbv zeta.
  destruct ev as [v|v|v|v|v|v|cur|b|r|r|r|r]; try destruct r as [a|e];
    try (unfold step; cbn; rewrite decide_True by reflexivity; reflexivity);
    rewrite step_unfold; cbn [snd]; rewrite List.filter_app, Hc, app_nil_r.
  all: try reflexivity.
  - unfold handler. now rewrite onChange_file_run;
      destruct (validateFile imports cur);
      [|destruct (createObjectURL imports cur)].
  - rewrite click_run. unfold trace_of. cbn [fst snd].
    rewrite form_onSubmit_run.
    destruct b, (submits imports _),
      (spotSchema imports (values s)) as [payload | [e es]]; reflexivity.
  - destruct spot; reflexivity.
Qed.

(** Only buttons submit.  An event calls [onSubmit] when it is the press of
    a button that submits and the form values pass the schema, and then
    once, with the payload; typing, selecting, picking a file and settled
    requests never call it.  "Localização atual" declares no type: it
    submits as well when the UI kit leaves it a submit button. *)
Theorem only_buttons_submit (ev : event) (s : FormState) :
  List.filter is_submit (step imports spot ev s).2 =
  match ev with
  | Click b =>
      if submits imports b
      then match spotSchema imports (values s) with
           | inl payload => [Props_onSubmit payload]
           | inr _ => []
           end
      else []
  | _ => []
  end.
Proof.
  assert (forall id, List.filter is_submit
            (if decide (stateId s = id) then []
             else if truthy id then [StateService_getById id] else []) = []) as Hc.
  { intros id. destruct (decide _); [reflexivity|]. now destruct (truthy id). }
  rewrite step_unfold. cbn [snd]. rewrite List.filter_app, Hc, app_nil_r.
  destruct ev as [v|v|v|v|v|v|cur|b|r|r|r|r]; try reflexivity.
  - unfold handler. now rewrite onChange_file_run;
      destruct (validateFile imports cur);
      [|destruct (createObjectURL imports cur)].
  - rewrite click_run. unfold trace_of. cbn [fst snd].
    rewrite form_onSubmit_run.
    destruct b, (submits imports _),
      (spotSchema imports (values s)) as [payload | [e es]]; reflexivity.
  - destruct r, spot; reflexivity.
  - destruct r; reflexivity.
  - destruct r; reflexivity.
  - destruct r; reflexivity.
Qed.


(** The cities are never asked for with an empty identifier: every request
    to [StateService.getById] made during the life of the form carries a
    [state_id] that is neither undefined nor the empty string. *)
Theorem cities_requested_for_a_state_only (file0 : option File)
    (evs : list event) (id : option string) :
  List.In (StateService_getById id) (lifecycle imports spot file0 evs).2 ->
  exists v : string, id = Some v /\ v <> EmptyString.
Proof.
  assert (forall i : option string, truthy i = true ->
            exists v : string, i = Some v /\ v <> EmptyString) as Htruthy.
  { intros [v|]; cbn; [|discriminate]. intros Hv. exists v. split; [reflexivity|].
    intros ->. discriminate. }
  assert (forall ev s, List.In (StateService_getById id) (step imports spot ev s).2 ->
            truthy id = true) as Hstep.
  { intros ev s. rewrite step_unfold. cbn [snd]. rewrite in_app_iff. intros [Hin|Hin].
    - pose proof (handler_no_fetch imports spot ev s) as Hh.
      rewrite Forall_forall in Hh. apply list_elem_of_In, Hh in Hin.
      cbn in Hin. discriminate.
    - destruct (decide _); [contradiction|].
      destruct (truthy (stateId _)) eqn:E; [|contradiction].
      destruct Hin as [[= <-]|[]]. exact E. }
  assert (forall l s, List.In (StateService_getById id) (run imports spot l s).2 ->
            truthy id = true) as Hrun.
  { induction l as [|ev l IH]; intros s; cbn; [contradiction|].
    pose proof (Hstep ev s) as H1. destruct (step imports spot ev s) as [s1 t1].
    specialize (IH s1). destruct (run imports spot l s1) as [s2 t2].
    cbn [snd] in *. rewrite in_app_iff. intros [H|H]; auto. }
  assert (mount spot (initial spot file0) =
          (initial spot file0,
           (if truthy (stateId (initial spot file0))
            then [StateService_getById (stateId (initial spot file0))] else [])
           ++ [CategoryService_getAll 1 9999; StateService_getAll], inl tt)) as Hm.
  { unfold mount, effect_mount, bind. rewrite effect_stateId_run. reflexivity. }
  unfold lifecycle. rewrite Hm. pose proof (Hrun evs (initial spot file0)) as Hr.
  destruct (run imports spot evs (initial spot file0)) as [s1 t1]. cbn [snd] in *.
  rewrite !in_app_iff. intros [[Hin|Hin]|Hin].
  - destruct (truthy (stateId (initial spot file0))) eqn:E; [|contradiction].
    destruct Hin as [[= <-]|[]]. now apply Htruthy.
  - destruct Hin as [Hin|[Hin|[]]]; discriminate.
  - now apply Htruthy, Hr.
Qed.

(** A submission does not look at the errors the form carries. *)
Lemma form_onSubmit_forgets_errors (f : gmap string FieldError -> gmap string FieldError)
    (s : FormState) :
  form_onSubmit imports (with_errors f s) = form_onSubmit imports s.
Proof.
  rewrite !form_onSubmit_run. cbn [with_errors values].
  destruct (spotSchema imports (values s)) as [payload | [e es]]; reflexivity.
Qed.

(** A refused file does not hold the form back.  After [validateFile] has
    thrown, pressing "Salvar" on values that pass the schema calls [onSubmit]
    with the payload and leaves the form without any error, the one on the
    preview included, while the file state is undefined. *)
Theorem refused_file_does_not_block_submission (currentFile : option File)
    (e : thrown) (payload : SpotInput) (s : FormState) :
  validateFile imports currentFile = Some e ->
  spotSchema imports (values s) = inl payload ->
  let s1 := state_of (onChange_file imports currentFile s) in
  let r := step imports spot (Click BtnSalvar) s1 in
  errors s1 !! "preview" = Some {| fe_type := "custom"; fe_message := message_of e |} /\
  r.2 = [Props_onSubmit payload] /\
  errors r.1 = ∅ /\ file r.1 = None /\ values r.1 = values s.
Proof.
  intros Hv Hp. cbv zeta. rewrite step_unfold, click_run, onChange_file_run, Hv.
  unfold state_of, trace_of, submits. cbn [fst snd button_props b_type from_option id].
  rewrite form_onSubmit_run. cbn [values errors]. rewrite Hp.
  cbn [fst snd values errors file with_errors]. rewrite lookup_insert_eq.
  unfold stateId. cbn [values]. rewrite decide_True by reflexivity.
  repeat split.
Qed.

Lemma list_to_map_first (l : list (string * FieldError)) (path : string) :
  (list_to_map l : gmap string FieldError) !! path
  = snd <$> List.find (fun p => String.eqb p.1 path) l.
Proof.
  induction l as [|[k v] l IH]; [reflexivity|]. cbn.
  destruct (String.eqb_spec k path) as [->|Hne].
  - now rewrite lookup_insert_eq.
  - now rewrite lookup_insert_ne.
Qed.

(** Failures are shown field by field.  After a submission that the schema
    refuses, the message shown at a field is the message of the first
    failure reported for that field's path, and a field without failure
    shows none; at least one failure is recorded. *)
Theorem failed_submission_shows_first_issue (e : string * FieldError)
    (es : list (string * FieldError)) (s : FormState) :
  spotSchema imports (values s) = inr (e, es) ->
  let s' := state_of (form_onSubmit imports s) in
  let shown (path : string) : option string :=
    List.find (fun p => String.eqb p.1 path) (e :: es) ≫= (fun p => fe_message p.2) in
  errors s' <> ∅ /\
  (forall path : string, error_message s' path = shown path) /\
  v_name_error (render spot s') = shown "name" /\
  v_file_error (render spot s') = shown "preview" /\
  v_longitude_error (render spot s') = shown "longitude" /\
  v_latitude_error (render spot s') = shown "latitude" /\
  sel_error (v_state (render spot s')) = shown "state_id" /\
  sel_error (v_city (render spot s')) = shown "city_id" /\
  sel_error (v_category (render spot s')) = shown "category_id".
Proof.
  intros Hs. cbv zeta. rewrite form_onSubmit_run, Hs.
  unfold state_of. cbn [fst].
  assert (forall path : string,
            error_message (with_errors (fun _ => list_to_map (e :: es)) s) path
            = List.find (fun p => String.eqb p.1 path) (e :: es)
                ≫= (fun p => fe_message p.2)) as Hshown.
  { intros path. unfold error_message. cbn [with_errors errors].
    rewrite list_to_map_first.
    now destruct (List.find (fun p => String.eqb p.1 path) (e :: es)). }
  split; [apply (issues_non_empty e es)|]. split; [exact Hshown|].
  unfold render. cbn [v_name_error v_file_error v_longitude_error v_latitude_error
                      v_state v_city v_category sel_error].
  rewrite !Hshown. repeat split.
Qed.

(** What an event does to the three lists: only a resolved answer replaces
    its list; a rejected one, and every other event, keeps all three. *)
Lemma step_lists (ev : event) (s : FormState) :
  states (step imports spot ev s).1
    = match ev with StatesSettled (Resolved d) => d | _ => states s end /\
  cities (step imports spot ev s).1
    = match ev with CitiesSettled (Resolved d) => sb_cities d | _ => cities s end /\
  categories (step imports spot ev s).1
    = match ev with CategoriesSettled (Resolved d) => d | _ => categories s end.
Proof.
  rewrite step_unfold. cbn [fst].
  destruct ev as [v|v|v|v|v|v|cur|b|r|r|r|r]; try (repeat split; fail).
  - unfold handler. rewrite onChange_file_run.
    destruct (validateFile imports cur);
      [|destruct (createObjectURL imports cur)]; repeat split.
  - rewrite click_run, form_onSubmit_run. unfold state_of. cbn [fst].
    destruct (submits imports b),
      (spotSchema imports (values s)) as [payload | [e es]]; repeat split.
  - destruct r, spot; repeat split.
  - destruct r; repeat split.
  - destruct r; repeat split.
  - destruct r; repeat split.
Qed.

(** The selects only ever offer what the services delivered.  At any point
    of the life of the form, each of the three lists is empty or is the
    content of an answer that was received for it, and each select offers
    the identifiers and names of its list, in the order received. *)
Theorem lists_come_from_answers (file0 : option File) (evs : list event) :
  let s := (lifecycle imports spot file0 evs).1 in
  (states s = [] \/
   exists d, List.In (StatesSettled (Resolved d)) evs /\ states s = d) /\
  (cities s = [] \/
   exists d, List.In (CitiesSettled (Resolved d)) evs /\ cities s = sb_cities d) /\
  (categories s = [] \/
   exists d, List.In (CategoriesSettled (Resolved d)) evs /\ categories s = d) /\
  sel_items (v_state (render spot s)) = (fun x => (st_id x, st_name x)) <$> states s /\
  sel_items (v_city (render spot s)) = (fun x => (ct_id x, ct_name x)) <$> cities s /\
  sel_items (v_category (render spot s))
    = (fun x => (cat_id x, cat_name x)) <$> categories s.
Proof.
  assert (forall l s0,
    (states (run imports spot l s0).1 = states s0 \/
     exists d, List.In (StatesSettled (Resolved d)) l /\
               states (run imports spot l s0).1 = d) /\
    (cities (run imports spot l s0).1 = cities s0 \/
     exists d, List.In (CitiesSettled (Resolved d)) l /\
               cities (run imports spot l s0).1 = sb_cities d) /\
    (categories (run imports spot l s0).1 = categories s0 \/
     exists d, List.In (CategoriesSettled (Resolved d)) l /\
               categories (run imports spot l s0).1 = d)) as Hrun.
  { induction l as [|ev l IH]; intros s0; [cbn; auto|].
    cbn [run]. pose proof (step_lists ev s0) as (Hs & Hc & Hg).
    destruct (step imports spot ev s0) as [s1 t1]. specialize (IH s1).
    destruct (run imports spot l s1) as [s2 t2]. cbn [fst] in *.
    destruct IH as (IHs & IHc & IHg). repeat split.
    - destruct IHs as [IHs|(d & Hin & Hd)]; [|right; exists d; cbn; auto].
      rewrite IHs, Hs.
      destruct ev as [| | | | | | | |[d|]| | |]; auto. right. exists d. cbn. auto.
    - destruct IHc as [IHc|(d & Hin & Hd)]; [|right; exists d; cbn; auto].
      rewrite IHc, Hc.
      destruct ev as [| | | | | | | | |[d|]| |]; auto. right. exists d. cbn. auto.
    - destruct IHg as [IHg|(d & Hin & Hd)]; [|right; exists d; cbn; auto].
      rewrite IHg, Hg.
      destruct ev as [| | | | | | | | | |[d|]|]; auto. right. exists d. cbn. auto. }
  cbv zeta.
  assert (state_of (mount spot (initial spot file0)) = initial spot file0) as Hm.
  { unfold mount, effect_mount, bind. rewrite effect_stateId_run. reflexivity. }
  unfold lifecycle. specialize (Hrun evs (initial spot file0)).
  destruct (mount spot (initial spot file0)) as [[s0 t0] r0].
  unfold state_of in Hm. cbn [fst] in Hm. subst s0.
  destruct (run imports spot evs (initial spot file0)) as [s1 t1]. cbn [fst] in *.
  destruct Hrun as (Hs & Hc & Hg). repeat split; assumption.
Qed.

(** The states arriving while a spot is edited put the spot's state back.
    Whatever state was picked in the meantime is replaced by
    [spot.city.state.id], the chosen city is left as it is, and the cities
    of the spot's state are asked for again when that changed [state_id] and
    it is not empty.  Without a spot the arrival changes no value and asks
    for nothing. *)
Theorem states_arrival_restores_the_spot_state (data : list StateDTO) (s : FormState) :
  let r := step imports spot (StatesSettled (Resolved data)) s in
  states r.1 = data /\
  city_id (values r.1) = city_id (values s) /\
  match spot with
  | Some sp =>
      let home := sref_id (cref_state (spot_city sp)) in
      state_id (values r.1) = Some home /\
      r.2 = (if decide (state_id (values s) = Some home) then []
             else if String.eqb home EmptyString then []
                  else [StateService_getById (Some home)])
  | None => values r.1 = values s /\ r.2 = []
  end.
Proof.
  cbv zeta. rewrite step_unfold. cbn [fst snd]. unfold stateId.
  destruct spot as [sp|]; cbn.
  - split; [reflexivity|]. split; [reflexivity|]. split; [reflexivity|].
    destruct (decide _); [reflexivity|].
    now destruct (String.eqb _ EmptyString).
  - rewrite decide_True by reflexivity.
    split; [reflexivity|]. split; [reflexivity|]. split; [|reflexivity].
    now destruct (values s).
Qed.

(** The position arriving fills both coordinates with numbers, over
    whatever was typed, and touches nothing else: the other fields, the
    lists and the file stay, and so do the errors, so that an error shown at
    the latitude or the longitude stays on display. *)
Theorem current_location_fills_coordinates (coords : number * number) (s : FormState) :
  let r := step imports spot (LocationSettled (Resolved coords)) s in
  r.2 = [] /\
  values r.1 = mkValues (name (values s)) (state_id (values s)) (city_id (values s))
                        (category_id (values s)) (preview (values s))
                        (NumValue coords.1) (NumValue coords.2) /\
  errors r.1 = errors s /\ file r.1 = file s /\
  states r.1 = states s /\ cities r.1 = cities s /\ categories r.1 = categories s /\
  v_latitude_error (render spot r.1) = v_latitude_error (render spot s) /\
  v_longitude_error (render spot r.1) = v_longitude_error (render spot s).
Proof.
  cbv zeta. rewrite step_unfold. cbn [fst snd]. unfold stateId. cbn.
  rewrite decide_True by reflexivity. repeat split.
Qed.
End Form.

(** An accepted picture followed by a refused text file. *)
Lemma refused_file_drops_the_accepted_one_witness :
  validateFile Samples.imports (Some photo_png) = None /\
  createObjectURL Samples.imports (Some photo_png) = inl "blob:mirante.png" /\
  validateFile Samples.imports (Some Samples.notes_txt)
    = Some (ThrownError (Some "Formato inválido")) /\
  file (state_of (onChange_file Samples.imports (Some Samples.notes_txt)
          (state_of (onChange_file Samples.imports (Some photo_png)
                       (initial None None))))) = None /\
  v_file_placeholder (render None
    (state_of (onChange_file Samples.imports (Some Samples.notes_txt)
       (state_of (onChange_file Samples.imports (Some photo_png)
                    (initial None None)))))) = "Buscar imagem".
Proof.
  pose proof (refused_file_drops_the_accepted_one Samples.imports None
                (Some photo_png) (Some Samples.notes_txt) "blob:mirante.png"
                (ThrownError (Some "Formato inválido")) (initial None None)
                eq_refl eq_refl eq_refl) as H.
  cbv zeta in H. destruct H as (_ & H1 & _ & _ & _ & H2).
  split; [reflexivity|]. split; [reflexivity|]. split; [reflexivity|].
  split; [exact H1|exact H2].
Defined.

(** Editing a spot of São Paulo: the request on mount is for "SP". *)
Lemma cities_requested_for_a_state_only_witness :
  List.In (StateService_getById (Some "SP"))
          (lifecycle Samples.imports (Some Samples.spot) None []).2 /\
  exists v : string, Some "SP" = Some v /\ v <> EmptyString.
Proof.
  assert (List.In (StateService_getById (Some "SP"))
            (lifecycle Samples.imports (Some Samples.spot) None []).2) as Hin
    by (left; reflexivity).
  split; [exact Hin|].
  exact (cities_requested_for_a_state_only Samples.imports (Some Samples.spot)
           None [] (Some "SP") Hin).
Defined.

(** A refused text file, then "Salvar" on a filled form. *)
Lemma refused_file_does_not_block_submission_witness :
  validateFile Samples.imports (Some Samples.notes_txt)
    = Some (ThrownError (Some "Formato inválido")) /\
  (step Samples.imports None (Click BtnSalvar)
     (state_of (onChange_file Samples.imports (Some Samples.notes_txt) Samples.filled))).2
  = [Props_onSubmit (mkSpotInput "Mirante" "SP" "3550308" "7" "blob:mirante.png"
                       (Fin (120 # 1)) (Fin (-46 # 1)))].
Proof.
  split; [reflexivity|].
  pose proof (refused_file_does_not_block_submission Samples.imports None
                (Some Samples.notes_txt) (ThrownError (Some "Formato inválido"))
                (mkSpotInput "Mirante" "SP" "3550308" "7" "blob:mirante.png"
                   (Fin (120 # 1)) (Fin (-46 # 1)))
                Samples.filled eq_refl eq_refl) as H.
  cbv zeta in H. destruct H as (_ & H & _). exact H.
Defined.

(** An empty form submitted: the name is reported as required. *)
Lemma failed_submission_shows_first_issue_witness :
  spotSchema Samples.imports (values (initial None None))
    = inr (("name", Samples.required), []) /\
  v_name_error (render None (state_of (form_onSubmit Samples.imports (initial None None))))
    = Some "Campo obrigatório" /\
  v_latitude_error (render None
      (state_of (form_onSubmit Samples.imports (initial None None)))) = None.
Proof.
  split; [reflexivity|].
  pose proof (failed_submission_shows_first_issue Samples.imports None
                ("name", Samples.required) [] (initial None None) eq_refl) as H.
  cbv zeta in H. destruct H as (_ & _ & Hn & _ & _ & Hl & _).
  split; [exact Hn|exact Hl].
Defined.
End SpotFormMore.

(** * Further properties of the locations page *)

Module LocationsMore.
Import Locations LocationsSpec Events.

Section Page.
Context {Raw LocationDTO : Type} (locationSchema : Raw -> LocationDTO + thrown).

(** The list parses when each element does, into the parsed elements in
    the same order. *)
Lemma z_array_parse_inl (xs : list Raw) (vs : list LocationDTO) :
  z_array_parse locationSchema xs = inl vs <->
  Forall2 (fun x v => locationSchema x = inl v) xs vs.
Proof.
  revert vs. induction xs as [|x xs IH]; intros vs; cbn.
  - split; [intros [= <-]; constructor | intros H; now inversion H].
  - destruct (locationSchema x) as [v|e] eqn:Hx.
    + destruct (z_array_parse locationSchema xs) as [ws|e] eqn:Hxs.
      * split.
        -- intros [= <-]. constructor; [exact Hx | now apply IH].
        -- intros H. inversion H as [|? w ? ws' Hw Hws]; subst.
           apply IH in Hws. congruence.
      * split; [discriminate|]. intros H. inversion H as [|? w ? ws' Hw Hws]; subst.
        apply IH in Hws. discriminate.
    + split; [discriminate|]. intros H. inversion H; subst. congruence.
Qed.

(** The list is refused when some element is, with the error of one of them. *)
Lemma z_array_parse_inr (xs : list Raw) :
  Exists (fun x => exists e, locationSchema x = inr e) xs ->
  exists x e, List.In x xs /\ locationSchema x = inr e /\
              z_array_parse locationSchema xs = inr e.
Proof.
  induction 1 as [x xs [e He]|x xs _ IH]; cbn.
  - exists x, e. rewrite He. auto.
  - destruct IH as (y & e & Hin & Hy & Hp). rewrite Hp.
    destruct (locationSchema x) as [v|e'] eqn:Hx.
    + exists y, e. auto.
    + exists x, e'. auto.
Qed.

(** One bad row refuses the whole page.  When an element of an answer does
    not pass [locationSchema], the page keeps the rows and the pagination
    metadata it had, calls nothing, and [getLocations] ends with an error
    that nothing catches. *)
Theorem one_bad_row_rejects_the_page (response : ListResponse Raw)
    (s : PageState LocationDTO) :
  Exists (fun x => exists e, locationSchema x = inr e) (data response) ->
  let r := step locationSchema (LocationsSettled (Resolved response)) s in
  r = (s, []) /\
  table r.1 = table s /\
  exists e : thrown,
    result_of (resume (getLocations locationSchema) (Resolved response) s) = inr e.
Proof.
  intros Hbad. cbv zeta.
  destruct (z_array_parse_inr (data response) Hbad) as (x & e & Hin & Hx & Hp).
  assert (step locationSchema (LocationsSettled (Resolved response)) s = (s, [])) as Hs.
  { unfold step, handler. rewrite resume_getLocations_run, Hp.
    now rewrite decide_True. }
  rewrite Hs. split; [reflexivity|]. split; [reflexivity|].
  exists e. rewrite resume_getLocations_run, Hp. reflexivity.
Qed.

(** An answer whose elements all pass replaces the rows by the parsed
    elements, as many and in the order of the answer, and the metadata by
    the answer's; the table then shows these rows with the answer's
    [totalPages] as page count, at the page it was on: the answer's own
    page number moves nothing, and nothing is requested. *)
Theorem parsed_rows_replace_the_page (response : ListResponse Raw)
    (vs : list LocationDTO) (s : PageState LocationDTO) :
  Forall2 (fun x v => locationSchema x = inl v) (data response) vs ->
  let r := step locationSchema (LocationsSettled (Resolved response)) s in
  r.2 = [] /\
  locations r.1 = vs /\ length (locations r.1) = length (data response) /\
  page_meta r.1 = meta response /\
  hook r.1 = hook s /\
  table r.1 = {| t_data := vs; t_pagination := pagination (hook s);
                 t_pageCount := meta_totalPages (meta response) |}.
Proof.
  intros Hall. cbv zeta.
  pose proof (Forall2_length _ _ _ Hall) as Hlen.
  apply z_array_parse_inl in Hall.
  assert (step locationSchema (LocationsSettled (Resolved response)) s
          = (mkPage (hook s) vs (meta response), [])) as Hs.
  { unfold step, handler. rewrite resume_getLocations_run, Hall.
    cbn [hook]. now rewrite decide_True. }
  rewrite Hs. cbn. repeat split. now symmetry.
Qed.

Lemma step_state (ev : event Raw) (s : PageState LocationDTO) :
  (step locationSchema ev s).1 =
  match ev with
  | PaginationChanged h => mkPage h (locations s) (page_meta s)
  | LocationsSettled (Resolved response) =>
      match z_array_parse locationSchema (data response) with
      | inl vs => mkPage (hook s) vs (meta response)
      | inr _ => s
      end
  | LocationsSettled (Rejected _) => s
  end.
Proof.
  pose proof (step_run locationSchema ev s) as [Hst _]. cbv zeta in Hst.
  rewrite <- Hst. destruct ev as [h|[response|e]]; try reflexivity.
  unfold handler. rewrite resume_getLocations_run.
  destruct (z_array_parse locationSchema (data response)); reflexivity.
Qed.

(** Rows and metadata always belong together.  At any point of the life of
    the page, either no answer has been accepted and it shows no row, with
    all four numbers of the metadata at zero, or its rows are the parsed
    elements of one received answer and its metadata is that same answer's. *)
Theorem rows_and_meta_come_together (h : PaginationHook) (evs : list (event Raw)) :
  let s := (lifecycle locationSchema h evs).1 in
  (locations s = [] /\
   page_meta s = {| meta_page := 0; meta_limit := 0; meta_total := 0;
                    meta_totalPages := 0 |}) \/
  (exists response,
     List.In (LocationsSettled (Resolved response)) evs /\
     z_array_parse locationSchema (data response) = inl (locations s) /\
     page_meta s = meta response).
Proof.
  assert (forall l s0,
    (locations (run locationSchema l s0).1 = locations s0 /\
     page_meta (run locationSchema l s0).1 = page_meta s0) \/
    (exists response,
       List.In (LocationsSettled (Resolved response)) l /\
       z_array_parse locationSchema (data response)
         = inl (locations (run locationSchema l s0).1) /\
       page_meta (run locationSchema l s0).1 = meta response)) as Hrun.
  { induction l as [|ev l IH]; intros s0; [left; split; reflexivity|].
    cbn [run]. pose proof (step_state ev s0) as Hst.
    destruct (step locationSchema ev s0) as [s1 t1]. specialize (IH s1).
    destruct (run locationSchema l s1) as [s2 t2]. cbn [fst] in *.
    destruct IH as [[Hl Hm]|(response & Hin & Hp & Hm)];
      [|right; exists response; cbn; auto].
    rewrite Hl, Hm, Hst.
    destruct ev as [h'|[response|e]]; cbn; auto.
    destruct (z_array_parse locationSchema (data response)) as [vs|e] eqn:Hp;
      cbn; auto.
    right. exists response. auto. }
  cbv zeta. unfold lifecycle, mount, call, bind, get, emit.
  specialize (Hrun evs (initial h)).
  destruct (run locationSchema evs (initial h)) as [s1 t1]. cbn [fst] in *.
  destruct Hrun as [[Hl Hm]|Hex]; [left|right; exact Hex].
  rewrite Hl, Hm. split; reflexivity.
Qed.

Lemma step_requests (ev : event Raw) (s : PageState LocationDTO) :
  Forall (fun e => is_locations_fetch e = true) (step locationSchema ev s).2 /\
  length (step locationSchema ev s).2 <= (if is_pagination_change ev then 1 else 0).
Proof.
  pose proof (step_run locationSchema ev s) as [_ Ht]. cbv zeta in Ht.
  pose proof (step_state ev s) as Hst. rewrite Ht.
  destruct (decide _) as [Heq|Hne].
  - split; [constructor|cbn; lia].
  - destruct ev as [h'|[response|e]]; cbn.
    + split; [repeat constructor|lia].
    + exfalso. apply Hne. rewrite Hst.
      destruct (z_array_parse locationSchema (data response)); split; reflexivity.
    + exfalso. apply Hne. rewrite Hst. split; reflexivity.
Qed.

(** The page asks once on mount, for page [page + 1]; afterwards at most
    once per change of the pagination, and never because an answer arrived
    or was refused.  It calls nothing but [LocationService.getAll]: no
    toast is ever shown. *)
Theorem one_request_per_pagination_change (h : PaginationHook)
    (evs : list (event Raw)) (r : outcome (ListResponse Raw))
    (s : PageState LocationDTO) :
  let t := (lifecycle locationSchema h evs).2 in
  head t = Some (LocationService_getAll (page h + 1) (limit h)) /\
  Forall (fun e => is_locations_fetch e = true) t /\
  length t <= 1 + length (List.filter is_pagination_change evs) /\
  (step locationSchema (LocationsSettled r) s).2 = [].
Proof.
  assert (forall l s0,
    Forall (fun e => is_locations_fetch e = true) (run locationSchema l s0).2 /\
    length (run locationSchema l s0).2
      <= length (List.filter is_pagination_change l)) as Hrun.
  { induction l as [|ev l IH]; intros s0; [split; [constructor|cbn; lia]|].
    cbn [run List.filter]. pose proof (step_requests ev s0) as [Hf Hl].
    destruct (step locationSchema ev s0) as [s1 t1]. specialize (IH s1).
    destruct (run locationSchema l s1) as [s2 t2]. cbn [snd] in *.
    destruct IH as [IHf IHl]. split; [now apply Forall_app|].
    rewrite length_app. destruct (is_pagination_change ev); cbn in *; lia. }
  cbv zeta. unfold lifecycle, mount, call, bind, get, emit.
  specialize (Hrun evs (initial h)).
  destruct (run locationSchema evs (initial h)) as [s1 t1]. cbn [snd] in *.
  destruct Hrun as [Hf Hl]. split; [reflexivity|]. split.
  - constructor; [reflexivity|exact Hf].
  - split; [cbn; lia|].
    pose proof (step_requests (LocationsSettled r) s) as [_ Hlen].
    cbn in Hlen. destruct (step locationSchema (LocationsSettled r) s).2; [reflexivity|].
    cbn in Hlen. lia.
Qed.
End Page.

(** An answer with a nameless row, on the first page. *)
Lemma one_bad_row_rejects_the_page_witness :
  Exists (fun x => exists e, Samples.location_schema x = inr e)
         [("1", "Mirante"); ("2", EmptyString)] /\
  step Samples.location_schema
       (LocationsSettled
          (Resolved {| data := [("1", "Mirante"); ("2", EmptyString)];
                       meta := sample_meta |}))
       (initial first_page)
  = (initial first_page, []).
Proof.
  assert (Exists (fun x => exists e, Samples.location_schema x = inr e)
                 [("1", "Mirante"); ("2", EmptyString)]) as Hbad.
  { apply Exists_cons_tl, Exists_cons_hd. eexists. reflexivity. }
  split; [exact Hbad|].
  pose proof (one_bad_row_rejects_the_page Samples.location_schema
                {| data := [("1", "Mirante"); ("2", EmptyString)];
                   meta := sample_meta |}
                (initial first_page) Hbad) as H.
  cbv zeta in H. destruct H as (H & _). exact H.
Defined.

(** An answer of two named rows. *)
Lemma parsed_rows_replace_the_page_witness :
  Forall2 (fun x v => Samples.location_schema x = inl v)
          [("1", "Mirante"); ("2", "Museu")] [("1", "Mirante"); ("2", "Museu")] /\
  table (step Samples.location_schema
           (LocationsSettled
              (Resolved {| data := [("1", "Mirante"); ("2", "Museu")];
                           meta := sample_meta |}))
           (initial first_page)).1
  = {| t_data := [("1", "Mirante"); ("2", "Museu")];
       t_pagination := {| pageIndex := 0; pageSize := 10 |};
       t_pageCount := 3 |}.
Proof.
  assert (Forall2 (fun x v => Samples.location_schema x = inl v)
            [("1", "Mirante"); ("2", "Museu")] [("1", "Mirante"); ("2", "Museu")])
    as Hall by (repeat constructor).
  split; [exact Hall|].
  pose proof (parsed_rows_replace_the_page Samples.location_schema
                {| data := [("1", "Mirante"); ("2", "Museu")]; meta := sample_meta |}
                [("1", "Mirante"); ("2", "Museu")] (initial first_page) Hall) as H.
  cbv zeta in H. destruct H as (_ & _ & _ & _ & _ & H). exact H.
Defined.
End LocationsMore.
